(** * The multi-modal RAG agent: embed, search, generate

    A shallow embedding of [multimodal_rag_agent.py]: the three pipeline
    stages of [MultiModalRAGAgent], the [chat] operation that orchestrates
    them, and the [POST /chat] handler of the FastAPI application.

    Python values are modelled by the type [value] (the JSON-shaped fragment
    the program manipulates), exceptions by [PyExn], and the calls to the
    external collaborators (OpenAI client, credential provider, [requests])
    by a record of oracles, [Runtime], together with a log of the calls made.
    Code that may raise lives in the monad [Py]. *)

From Stdlib Require Import ZArith List String Ascii Bool Floats Lia.
From Stdlib Require Import DecimalString.
Import ListNotations.

Set Warnings "-inexact-float,-register-all".

Local Open Scope Z_scope.
Local Open Scope string_scope.

(* ================================================================== *)
(** ** Python values *)
(* ================================================================== *)

(** The objects the agent builds and receives: [None], booleans, integers,
    floats, strings, lists and dicts.  A dict keeps its entries in insertion
    order, as Python's does. *)
Inductive value : Type :=
| VNone
| VBool (b : bool)
| VInt (n : Z)
| VFloat (x : float)
| VStr (s : string)
| VList (items : list value)
| VDict (entries : list (string * value)).

(** [type(v).__name__], as it shows in the interpreter's error messages. *)
Definition type_name (v : value) : string :=
  match v with
  | VNone => "NoneType"
  | VBool _ => "bool"
  | VInt _ => "int"
  | VFloat _ => "float"
  | VStr _ => "str"
  | VList _ => "list"
  | VDict _ => "dict"
  end.

(** Decimal rendering of an integer, as [str(n)] and f-strings give it. *)
Definition string_of_Z (n : Z) : string :=
  NilZero.string_of_int (Z.to_int n).

(** The line feed that Python writes [\n]. *)
Definition newline : string := String (ascii_of_nat 10) EmptyString.

(** *** Dicts as ordered association lists *)

Fixpoint dict_lookup (k : string) (d : list (string * value)) : option value :=
  match d with
  | [] => None
  | (k', v) :: rest => if String.eqb k k' then Some v else dict_lookup k rest
  end.

Definition dict_keys (d : list (string * value)) : list string := map fst d.

Definition dict_contains (k : string) (d : list (string * value)) : bool :=
  match dict_lookup k d with Some _ => true | None => false end.

(** Characters of a string, one string each: what iterating a [str] yields. *)
Fixpoint chars (s : string) : list value :=
  match s with
  | EmptyString => []
  | String c rest => VStr (String c EmptyString) :: chars rest
  end.

(* ================================================================== *)
(** ** Exceptions and outcomes *)
(* ================================================================== *)

(** Instances of Python's [Exception] class, the ones an [except Exception]
    clause handles.  [Exn cls text] is an instance of the subclass [cls]
    whose [str()] is [text]; FastAPI's [HTTPException] keeps its
    [status_code] and [detail] apart, since the handler reads them. *)
Inductive PyExn : Type :=
| Exn (cls : string) (text : string)
| HTTPException (status_code : Z) (detail : value).

Inductive outcome (A : Type) : Type :=
| Returns (a : A)
| Raises (e : PyExn).

Arguments Returns {A} a.
Arguments Raises {A} e.

Definition AttributeError (v : value) (attr : string) : PyExn :=
  Exn "AttributeError"
      ("'" ++ type_name v ++ "' object has no attribute '" ++ attr ++ "'").

Definition TypeError_not_iterable (v : value) : PyExn :=
  Exn "TypeError" ("'" ++ type_name v ++ "' object is not iterable").

Definition TypeError_not_container (v : value) : PyExn :=
  Exn "TypeError" ("argument of type '" ++ type_name v ++ "' is not iterable").

Definition TypeError_not_subscriptable (v : value) : PyExn :=
  Exn "TypeError" ("'" ++ type_name v ++ "' object is not subscriptable").

Definition IndexError : PyExn := Exn "IndexError" "list index out of range".

Definition KeyError (k : string) : PyExn := Exn "KeyError" ("'" ++ k ++ "'").

(* ================================================================== *)
(** ** The external collaborators *)
(* ================================================================== *)

(** Objects returned by the libraries, reduced to the attributes and
    methods the agent uses. *)

Record Embedding : Type := { embedding : value }.

Record CreateEmbeddingResponse : Type := { data : list Embedding }.

Record AccessToken : Type := { token : string }.

(** A [requests.Response]: what its two methods do when called. *)
Record Response : Type := {
  raise_for_status : outcome unit;
  json : outcome value
}.

(** The message of a choice.  Its [content] is optional: the service
    leaves it out of an answer that has no text (a reply that was filtered,
    or one made of tool calls), and the client then gives [None]. *)
Record ChatCompletionMessage : Type := { content : option string }.

Record Choice : Type := { message : ChatCompletionMessage }.

Record ChatCompletion : Type := { choices : list Choice }.

(** Everything outside the program: the three remote services, the
    credential provider, the process environment, and the two library
    functions whose output is only passed along ([json.dumps] and the
    built-in [repr]).  Within one run of [chat] each service is called at
    most once, so an oracle per request loses nothing. *)
Record Runtime : Type := {
  embeddings_create : string -> string -> outcome CreateEmbeddingResponse;
  credential_get_token : string -> outcome AccessToken;
  os_getenv : string -> option string;
  requests_post : string -> value -> value -> outcome Response;
  chat_completions_create :
    string -> value -> float -> outcome ChatCompletion;
  json_dumps : value -> Z -> string;
  builtins_repr : value -> string
}.

(** [str(v)]: a string is itself, every other built-in prints as its
    [repr]. *)
Definition py_str (R : Runtime) (v : value) : string :=
  match v with
  | VStr s => s
  | _ => builtins_repr R v
  end.

(** [str(e)].  Starlette's [HTTPException.__str__] renders
    [f"{self.status_code}: {self.detail}"]. *)
Definition exn_str (R : Runtime) (e : PyExn) : string :=
  match e with
  | Exn _ text => text
  | HTTPException status_code detail =>
      string_of_Z status_code ++ ": " ++ py_str R detail
  end.

(** The calls that leave the process, in the order they are made. *)
Inductive Event : Type :=
| EmbeddingsCreate (input model : string)
| GetToken (scope : string)
| RequestsPost (url : string) (headers body : value)
| ChatCompletionsCreate (model : string) (messages : value)
                        (temperature : float).

Definition Log : Type := list Event.

(* ================================================================== *)
(** ** The monad of Python code: a call log and exceptions *)
(* ================================================================== *)

Definition Py (A : Type) : Type := Log -> outcome A * Log.

Definition ret {A : Type} (a : A) : Py A := fun log => (Returns a, log).

Definition raise {A : Type} (e : PyExn) : Py A := fun log => (Raises e, log).

Definition bind {A B : Type} (m : Py A) (k : A -> Py B) : Py B :=
  fun log =>
    match m log with
    | (Returns a, log') => k a log'
    | (Raises e, log') => (Raises e, log')
    end.

(** [try: body / except Exception as e: handler]. *)
Definition try_except {A : Type} (body : Py A) (handler : PyExn -> Py A)
  : Py A :=
  fun log =>
    match body log with
    | (Returns a, log') => (Returns a, log')
    | (Raises e, log') => handler e log'
    end.

(** The outcome of a computation that touches nothing outside. *)
Definition lift {A : Type} (o : outcome A) : Py A := fun log => (o, log).

(** A call to a collaborator: it is logged, then answers or raises. *)
Definition call {A : Type} (ev : Event) (answer : outcome A) : Py A :=
  fun log => (answer, (log ++ [ev])%list).

(** [log'] is [log] with further calls after it. *)
Definition extends (log log' : Log) : Prop :=
  exists added, log' = (log ++ added)%list.

Declare Scope py_scope.
Delimit Scope py_scope with py.
Notation "x <- m ;; k" := (bind m (fun x => k))
  (at level 61, m at next level, right associativity) : py_scope.
Notation "m ;;; k" := (bind m (fun _ => k))
  (at level 61, right associativity) : py_scope.
Local Open Scope py_scope.

(** A list comprehension whose element expression may raise: elements are
    evaluated left to right and the first exception ends it. *)
Fixpoint comprehension {A B : Type} (f : A -> Py B) (xs : list A)
  : Py (list B) :=
  match xs with
  | [] => ret []
  | x :: rest =>
      y <- f x ;;
      ys <- comprehension f rest ;;
      ret (y :: ys)
  end.

(** *** Operations of the interpreter that can raise

    They touch nothing outside the process: each is an [outcome], and the
    code runs it with [lift]. *)

(** An optional string as a value: the string, or [None]. *)
Definition py_optional (o : option string) : value :=
  match o with
  | Some s => VStr s
  | None => VNone
  end.

(** [xs[0]] on a list attribute of a library object. *)
Definition first {A : Type} (xs : list A) : outcome A :=
  match xs with
  | x :: _ => Returns x
  | [] => Raises IndexError
  end.

(** [obj.get(key, default)]: only a dict has the method. *)
Definition py_get (obj : value) (key : string) (default : value)
  : outcome value :=
  match obj with
  | VDict d =>
      match dict_lookup key d with
      | Some v => Returns v
      | None => Returns default
      end
  | _ => Raises (AttributeError obj "get")
  end.

(** [for x in obj]: the items a [for] clause walks through. *)
Definition py_iter (obj : value) : outcome (list value) :=
  match obj with
  | VList items => Returns items
  | VDict d => Returns (map VStr (dict_keys d))
  | VStr s => Returns (chars s)
  | _ => Raises (TypeError_not_iterable obj)
  end.

(** [key in obj] for a string [key]; the agent's results are dicts. *)
Definition py_in (key : string) (obj : value) : outcome bool :=
  match obj with
  | VDict d => Returns (dict_contains key d)
  | _ => Raises (TypeError_not_container obj)
  end.

(** [obj[key]] for a string [key]. *)
Definition py_getitem (obj : value) (key : string) : outcome value :=
  match obj with
  | VDict d =>
      match dict_lookup key d with
      | Some v => Returns v
      | None => Raises (KeyError key)
      end
  | _ => Raises (TypeError_not_subscriptable obj)
  end.

(* ================================================================== *)
(** ** The agent *)
(* ================================================================== *)

Module MultiModalRAGAgent.

(** The configuration [__init__] stores on the instance.  The OpenAI client
    and the credential are handles on the outside world: they are the
    oracles of [Runtime]. *)
Record t : Type := {
  azure_ai_endpoint : option string;
  embedding_model : string;
  chat_model : string;
  search_endpoint : string;
  search_index : string;
  auth_mode : string;
  system_prompt : string
}.

(** The request body of the vector search. *)
Definition search_body (query_embedding : value) (top_k : Z) : value :=
  VDict [ ("count", VBool true);
          ("select", VStr "content_text, document_title");
          ("vectorQueries",
           VList [ VDict [ ("vector", query_embedding);
                           ("k", VInt top_k);
                           ("fields", VStr "content_embedding");
                           ("kind", VStr "vector") ] ]) ].

(** The temperature of every chat completion. *)
Definition temperature : float := 0.7%float.

Section Methods.

Variable R : Runtime.
Variable self : t.

(** [_generate_embedding(self, text)] *)
Definition _generate_embedding (text : string) : Py value :=
  response <- call (EmbeddingsCreate text (embedding_model self))
                   (embeddings_create R text (embedding_model self)) ;;
  item <- lift (first (data response)) ;;
  ret (embedding item).

(** The headers of the search request, by authentication mode. *)
Definition search_headers : Py value :=
  if String.eqb (auth_mode self) "entra" then
    let scope := "https://search.azure.com/.default" in
    tok <- call (GetToken scope) (credential_get_token R scope) ;;
    ret (VDict [ ("Content-Type", VStr "application/json");
                 ("Authorization", VStr ("Bearer " ++ token tok)) ])
  else
    ret (VDict [ ("Content-Type", VStr "application/json");
                 ("api-key",
                  match os_getenv R "SEARCH_SERVICE_API_KEY" with
                  | Some k => VStr k
                  | None => VNone
                  end) ]).

(** The record built for one matched document. *)
Definition source_record (doc : value) : Py value :=
  chunk <- lift (py_get doc "content_text" (VStr "")) ;;
  title <- lift (py_get doc "document_title" (VStr "Unknown")) ;;
  score <- lift (py_get doc "@search.score" (VInt 0)) ;;
  ret (VDict [ ("chunk", chunk); ("title", title); ("score", score) ]).

(** The URL of the search request. *)
Definition search_url : string :=
  search_endpoint self ++ "/indexes/" ++ search_index self
  ++ "/docs/search?api-version=2023-11-01".

(** [_search_index(self, query_embedding, top_k)] *)
Definition _search_index (query_embedding : value) (top_k : Z) : Py value :=
  let url := search_url in
  headers <- search_headers ;;
  let body := search_body query_embedding top_k in
  response <- call (RequestsPost url headers body)
                   (requests_post R url headers body) ;;
  lift (raise_for_status response) ;;;
  parsed <- lift (json response) ;;
  results <- lift (py_get parsed "value" (VList [])) ;;
  docs <- lift (py_iter results) ;;
  records <- comprehension source_record docs ;;
  ret (VList records).

(** The two messages of the prompt. *)
Definition prompt_messages (query : string) (context : value) : value :=
  let user_message :=
    "The user query is: " ++ query ++ newline
    ++ "The context is: " ++ json_dumps R context 2 in
  VList [ VDict [ ("role", VStr "system");
                  ("content", VStr (system_prompt self)) ];
          VDict [ ("role", VStr "user");
                  ("content", VStr user_message) ] ].

(** [_generate_response(self, query, context)] *)
Definition _generate_response (query : string) (context : value)
  : Py (option string) :=
  let messages := prompt_messages query context in
  response <- call (ChatCompletionsCreate (chat_model self) messages
                                          temperature)
                   (chat_completions_create R (chat_model self) messages
                                            temperature) ;;
  choice <- lift (first (choices response)) ;;
  ret (content (message choice)).

(** The envelope of a run that went through. *)
Definition success_envelope (response : option string) (context : value)
                            (user_message : string) : value :=
  VDict [ ("response", py_optional response);
          ("sources", context);
          ("query", VStr user_message) ].

(** The envelope built by the [except] clause. *)
Definition error_envelope (e : PyExn) (user_message : string) : value :=
  VDict [ ("response",
           VStr ("I encountered an error while processing your request: "
                 ++ exn_str R e));
          ("sources", VList []);
          ("query", VStr user_message);
          ("error", VStr (exn_str R e)) ].

(** [chat(self, user_message, top_k)] *)
Definition chat (user_message : string) (top_k : Z) : Py value :=
  try_except
    (query_embedding <- _generate_embedding user_message ;;
     context <- _search_index query_embedding top_k ;;
     response <- _generate_response user_message context ;;
     ret (success_envelope response context user_message))
    (fun e => ret (error_envelope e user_message)).

(** The value of [top_k] when the caller leaves it out. *)
Definition default_top_k : Z := 5.

(** [chat(self, user_message)] *)
Definition chat_default (user_message : string) : Py value :=
  chat user_message default_top_k.

End Methods.

End MultiModalRAGAgent.

(* ================================================================== *)
(** ** The HTTP application *)
(* ================================================================== *)

Module ChatRequest.

(** The validated body of a [POST /chat] request. *)
Record t : Type := { message : string; top_k : Z }.

(** The body as parsed: [top_k] is optional and defaults to 5. *)
Definition parse (message : string) (top_k : option Z) : t :=
  {| message := message;
     top_k := match top_k with Some k => k | None => 5 end |}.

(** What FastAPI makes of the body of a request before it calls the
    handler: the body is validated against the model, and a body that does
    not pass (no [message], a [top_k] that is no integer) never reaches the
    handler. *)
Inductive body : Type :=
| Valid (request : t)
| Invalid (errors : value).

End ChatRequest.

Module ChatResponse.



End ChatResponse.

Module App.

Section Handlers.

Variable R : Runtime.
Variable agent : MultiModalRAGAgent.t.

(** [POST /chat] *)
Definition chat (request : ChatRequest.t) : Py value :=
  try_except
    (result <- MultiModalRAGAgent.chat R agent
                 (ChatRequest.message request) (ChatRequest.top_k request) ;;
     failed <- lift (py_in "error" result) ;;
     if failed : bool then
       detail <- lift (py_getitem result "error") ;;
       raise (HTTPException 500 detail)
     else
       ret result)
    (fun e => raise (HTTPException 500 (VStr (exn_str R e)))).

(** [POST /api/chat] *)
Definition api_chat (request : ChatRequest.t) : Py value := chat request.

End Handlers.

(** The two routes that run the agent. *)
Inductive route : Type := POST_chat | POST_api_chat.

Definition handler (R : Runtime) (agent : MultiModalRAGAgent.t) (r : route)
  : ChatRequest.t -> Py value :=
  match r with
  | POST_chat => chat R agent
  | POST_api_chat => api_chat R agent
  end.










End App.

(* ================================================================== *)
(** ** Runs of the pipeline *)
(* ================================================================== *)

Inductive stage : Type := Embed | Search | Generate.

Section Runs.

Import MultiModalRAGAgent.

Variable R : Runtime.
Variable self : MultiModalRAGAgent.t.
Variable user_message : string.
Variable top_k : Z.
Variable log : Log.

(** The three stages ran one after the other from [log] and each returned:
    the search stage produced [context], the generation stage was given
    [context] and produced [response], and the log ended as [log']. *)
Inductive all_stages_return (context : value) (response : option string)
                            (log' : Log) : Prop :=
| stages_return (query_embedding : value) (l1 l2 : Log) :
    _generate_embedding R self user_message log
      = (Returns query_embedding, l1) ->
    _search_index R self query_embedding top_k l1 = (Returns context, l2) ->
    _generate_response R self user_message context l2
      = (Returns response, log') ->
    all_stages_return context response log'.

(** Stage [st] raised [e] with the log at [log'], the stages before it
    having returned. *)
Inductive stage_raises : stage -> PyExn -> Log -> Prop :=
| embed_raises (e : PyExn) (log' : Log) :
    _generate_embedding R self user_message log = (Raises e, log') ->
    stage_raises Embed e log'
| search_raises (query_embedding : value) (l1 : Log)
                (e : PyExn) (log' : Log) :
    _generate_embedding R self user_message log
      = (Returns query_embedding, l1) ->
    _search_index R self query_embedding top_k l1 = (Raises e, log') ->
    stage_raises Search e log'
| generate_raises (query_embedding : value) (l1 : Log)
                  (context : value) (l2 : Log)
                  (e : PyExn) (log' : Log) :
    _generate_embedding R self user_message log
      = (Returns query_embedding, l1) ->
    _search_index R self query_embedding top_k l1 = (Returns context, l2) ->
    _generate_response R self user_message context l2 = (Raises e, log') ->
    stage_raises Generate e log'.

End Runs.

(** The record of a document that is a dict, written as a function of its
    entries: each entry is the document's field or, failing that, the
    default ([source_record_of_dict] below). *)
Definition record_of (d : list (string * value)) : value :=
  VDict [ ("chunk",
           match dict_lookup "content_text" d with
           | Some v => v | None => VStr ""
           end);
          ("title",
           match dict_lookup "document_title" d with
           | Some v => v | None => VStr "Unknown"
           end);
          ("score",
           match dict_lookup "@search.score" d with
           | Some v => v | None => VInt 0
           end) ].

(** The contract of the search service that the agent relies on for the
    size of its result: a search that succeeds lists at most [k] matches. *)
Definition honours_k (R : Runtime) : Prop :=
  forall url headers query_embedding k response parsed results docs,
    requests_post R url headers
      (MultiModalRAGAgent.search_body query_embedding k) = Returns response ->
    raise_for_status response = Returns tt ->
    json response = Returns parsed ->
    py_get parsed "value" (VList []) = Returns results ->
    py_iter results = Returns docs ->
    (Z.of_nat (List.length docs) <= k)%Z.

(* ================================================================== *)
(** ** A test double of the outside world *)
(* ================================================================== *)

Module Scenario.

Definition agent : MultiModalRAGAgent.t :=
  {| MultiModalRAGAgent.azure_ai_endpoint :=
       Some "https://example.openai.azure.com";
     MultiModalRAGAgent.embedding_model := "text-embedding-3-large";
     MultiModalRAGAgent.chat_model := "gpt-4o";
     MultiModalRAGAgent.search_endpoint :=
       "https://example.search.windows.net";
     MultiModalRAGAgent.search_index := "multi-modal-rag-index";
     MultiModalRAGAgent.auth_mode := "entra";
     MultiModalRAGAgent.system_prompt :=
       "You are a professional RAG-based assistant." |}.

Definition question : string := "What is BMW's approach to circularity?".

(** The indexed document of the scenario, as the search service lists it. *)
Definition report : value :=
  VDict [ ("@search.score", VFloat 0.87%float);
          ("content_text", VStr "BMW pursues circularity via...");
          ("document_title", VStr "Sustainability Report 2023") ].

(** A match that carries its score only. *)
Definition bare_match : value :=
  VDict [ ("@search.score", VFloat 0.5%float) ].

Definition embedded : outcome CreateEmbeddingResponse :=
  Returns
    {| data :=
         [ {| embedding := VList [VFloat 0.25%float; VFloat (-0.5)%float] |} ]
    |}.

Definition answer : string :=
  "Sustainability Report 2023 describes BMW's circularity work.".

Definition answered : outcome ChatCompletion :=
  Returns {| choices := [ {| message := {| content := Some answer |} |} ] |}.

(** The [k] of a search request body. *)
Definition requested_k (body : value) : option Z :=
  match body with
  | VDict d =>
      match dict_lookup "vectorQueries" d with
      | Some (VList (VDict q :: _)) =>
          match dict_lookup "k" q with
          | Some (VInt k) => Some k
          | _ => None
          end
      | _ => None
      end
  | _ => None
  end.

Definition found (hits : list value) : Response :=
  {| raise_for_status := Returns tt;
     json :=
       Returns (VDict [ ("@odata.count", VInt (Z.of_nat (List.length hits)));
                        ("value", VList hits) ]) |}.

Definition bad_request (url : string) : Response :=
  {| raise_for_status :=
       Raises (Exn "HTTPError"
                   ("400 Client Error: Bad Request for url: " ++ url));
     json :=
       Returns (VDict [ ("error",
                         VDict [ ("code", VStr "InvalidRequestParameter") ]) ])
  |}.

(** A search service holding [hits], most relevant first: it answers with
    the first [k] of them, and rejects a request whose [k] is not
    positive. *)
Definition search (hits : list value) (url : string) (headers body : value)
  : outcome Response :=
  match requested_k body with
  | Some k =>
      if (0 <? k)%Z then Returns (found (firstn (Z.to_nat k) hits))
      else Returns (bad_request url)
  | None => Returns (bad_request url)
  end.

(** The outside world, given what the embedding service does, what the
    index holds and what the chat-completion service does. *)
Definition runtime (embed : outcome CreateEmbeddingResponse)
                   (hits : list value)
                   (complete : outcome ChatCompletion) : Runtime :=
  {| embeddings_create := fun _ _ => embed;
     credential_get_token := fun _ => Returns {| token := "eyJ0eXAi" |};
     os_getenv := fun _ => None;
     requests_post := search hits;
     chat_completions_create := fun _ _ _ => complete;
     json_dumps := fun v _ => "<" ++ type_name v ++ ">";
     builtins_repr := fun v => "<" ++ type_name v ++ ">" |}.

(** Every service up, one document indexed. *)
Definition healthy : Runtime := runtime embedded [report] answered.

(** The embedding service fails with an exception that has no message. *)
Definition silent_failure : Runtime :=
  runtime (Raises (Exn "Exception" EmptyString)) [report] answered.

(** The embedding service refuses the credential. *)
Definition unauthorized : Runtime :=
  runtime (Raises (Exn "AuthenticationError" "Error code: 401"))
          [report] answered.

(** The index holds a match with nothing but its score, and an empty one. *)
Definition sparse : Runtime :=
  runtime embedded [bare_match; VDict []] answered.

(** A search service that lists both of its documents whatever [k] is. *)
Definition overflowing : Runtime :=
  {| embeddings_create := embeddings_create healthy;
     credential_get_token := credential_get_token healthy;
     os_getenv := os_getenv healthy;
     requests_post := fun _ _ _ => Returns (found [report; bare_match]);
     chat_completions_create := chat_completions_create healthy;
     json_dumps := json_dumps healthy;
     builtins_repr := builtins_repr healthy |}.

End Scenario.

(* ================================================================== *)
(** ** The services a run calls *)
(* ================================================================== *)

Inductive service : Type :=
| EmbeddingService
| CredentialProvider
| SearchService
| CompletionService.

(** The collaborator a logged call went to. *)
Definition service_of (ev : Event) : service :=
  match ev with
  | EmbeddingsCreate _ _ => EmbeddingService
  | GetToken _ => CredentialProvider
  | RequestsPost _ _ _ => SearchService
  | ChatCompletionsCreate _ _ _ => CompletionService
  end.

(** The calls of a run in which nothing fails, in order. *)
Definition full_run (self : MultiModalRAGAgent.t) : list service :=
  (EmbeddingService
   :: (if String.eqb (MultiModalRAGAgent.auth_mode self) "entra"
       then [CredentialProvider] else [])
   ++ [SearchService; CompletionService])%list.

Definition is_dict (v : value) : bool :=
  match v with VDict _ => true | _ => false end.

(** More test doubles: every collaborator set on its own. *)
Module Doubles.

(** The agent of the scenario, configured for API-key authentication. *)
Definition keyed_agent : MultiModalRAGAgent.t :=
  {| MultiModalRAGAgent.azure_ai_endpoint :=
       MultiModalRAGAgent.azure_ai_endpoint Scenario.agent;
     MultiModalRAGAgent.embedding_model :=
       MultiModalRAGAgent.embedding_model Scenario.agent;
     MultiModalRAGAgent.chat_model :=
       MultiModalRAGAgent.chat_model Scenario.agent;
     MultiModalRAGAgent.search_endpoint :=
       MultiModalRAGAgent.search_endpoint Scenario.agent;
     MultiModalRAGAgent.search_index :=
       MultiModalRAGAgent.search_index Scenario.agent;
     MultiModalRAGAgent.auth_mode := "key";
     MultiModalRAGAgent.system_prompt :=
       MultiModalRAGAgent.system_prompt Scenario.agent |}.

Definition world (embed : outcome CreateEmbeddingResponse)
                 (get_token : outcome AccessToken)
                 (api_key : option string)
                 (post : outcome Response)
                 (complete : outcome ChatCompletion) : Runtime :=
  {| embeddings_create := fun _ _ => embed;
     credential_get_token := fun _ => get_token;
     os_getenv := fun _ => api_key;
     requests_post := fun _ _ _ => post;
     chat_completions_create := fun _ _ _ => complete;
     json_dumps := json_dumps Scenario.healthy;
     builtins_repr := builtins_repr Scenario.healthy |}.

Definition granted : outcome AccessToken :=
  Returns {| token := "eyJ0eXAi" |}.

(** A search answer with the given body. *)
Definition answering (body : value) : outcome Response :=
  Returns {| raise_for_status := Returns tt; json := Returns body |}.

(** The service is down: status 503, and a body that is not JSON. *)
Definition unavailable : outcome Response :=
  Returns
    {| raise_for_status :=
         Raises (Exn "HTTPError" "503 Server Error: Service Unavailable");
       json := Raises (Exn "JSONDecodeError" "Expecting value") |}.

(** The body of a completion that holds no choice. *)
Definition silent : outcome ChatCompletion := Returns {| choices := [] |}.



(** An index whose only match has a null score. *)
Definition unscored : Runtime :=
  Scenario.runtime Scenario.embedded
                   [ VDict [ ("@search.score", VNone) ] ]
                   Scenario.answered.

End Doubles.

(** What a [for] clause can walk through, among the values. *)
Definition is_iterable (v : value) : bool :=
  match v with VList _ | VDict _ | VStr _ => true | _ => false end.

(* ================================================================== *)
(** ** The interactive loop *)
(* ================================================================== *)

Module Cli.

(** The built-ins of the interpreter that the loop applies to text and to
    the values it shows.  [slice_other] and [subscript_other] say what
    slicing and subscripting do to a value that is not a list, or not a
    dict. *)
Record Builtins : Type := {
  str_strip : string -> string;
  str_lower : string -> string;
  format_spec : value -> string -> outcome string;
  slice_other : value -> Z -> outcome value;
  subscript_other : value -> string -> PyExn
}.

(** What [input()] meets: a line of text, or Ctrl-C.  The end of the list
    is the end of the input. *)
Inductive keystroke : Type :=
| Line (text : string)
| CtrlC.

(** What goes to the terminal: the prompt of [input], and the lines of
    [print]. *)
Inductive written : Type :=
| Prompt (text : string)
| Print (text : string).

(** Code that calls the agent and writes to the terminal. *)
Definition Cli (A : Type) : Type :=
  Log * list written -> outcome A * (Log * list written).

Definition cret {A : Type} (a : A) : Cli A := fun st => (Returns a, st).

Definition cbind {A B : Type} (m : Cli A) (k : A -> Cli B) : Cli B :=
  fun st =>
    match m st with
    | (Returns a, st') => k a st'
    | (Raises e, st') => (Raises e, st')
    end.

Definition ctry {A : Type} (body : Cli A) (handler : PyExn -> Cli A)
  : Cli A :=
  fun st =>
    match body st with
    | (Returns a, st') => (Returns a, st')
    | (Raises e, st') => handler e st'
    end.

Definition clift {A : Type} (o : outcome A) : Cli A := fun st => (o, st).

(** A method of the agent, run from the loop. *)
Definition run {A : Type} (m : Py A) : Cli A :=
  fun st =>
    let (o, log') := m (fst st) in (o, (log', snd st)).

Definition write (w : written) : Cli unit :=
  fun st => (Returns tt, (fst st, (snd st ++ [w])%list)).

Definition print (text : string) : Cli unit := write (Print text).

Declare Scope cli_scope.
Delimit Scope cli_scope with cli.
Notation "x <- m ;; k" := (cbind m (fun x => k))
  (at level 61, m at next level, right associativity) : cli_scope.
Notation "m ;;; k" := (cbind m (fun _ => k))
  (at level 61, right associativity) : cli_scope.

(** [bool(v)] *)
Definition py_truthy (v : value) : bool :=
  match v with
  | VNone => false
  | VBool b => b
  | VInt n => negb (n =? 0)%Z
  | VFloat x => negb (PrimFloat.eqb x 0%float)
  | VStr s => negb (String.eqb s EmptyString)
  | VList items => match items with [] => false | _ :: _ => true end
  | VDict entries => match entries with [] => false | _ :: _ => true end
  end.

(** [text * n] *)
Fixpoint repeated (text : string) (n : nat) : string :=
  match n with
  | O => EmptyString
  | S n' => text ++ repeated text n'
  end.

(** The literals of the loop. *)
Definition title_line : string := "ü§ñ Multi-Modal RAG Agent - Interactive Mode".
Definition prompt : string := newline ++ "üìù You: ".
Definition goodbye : string := newline ++ "üëã Goodbye!".
Definition interrupted : string := newline ++ newline ++ "üëã Goodbye!".
Definition help_header : string := newline ++ "üí° Example queries you can try:".
Definition searching : string := newline ++ "üîç Searching knowledge base...".
Definition agent_prefix : string := newline ++ "ü§ñ Agent: ".
Definition sources_header : string := newline ++ "üìö Sources:".
Definition error_prefix : string := newline ++ "‚ùå Error: ".

Definition example_queries : list string :=
  [ "What is BMW's approach to circularity?";
    "Tell me about BMW's forwardism strategy";
    "What are BMW's sustainability initiatives for natural rubber?";
    "Describe BMW's sustainability journey from 1973 to 2030" ].

Definition quit_words : list string := ["quit"; "exit"; "q"].

Definition EOFError : PyExn := Exn "EOFError" "EOF when reading a line".

(** How the loop goes on after a turn, and how a session stands when it is
    looked at. *)
Inductive control : Type := Continue | Break.

Inductive status : Type := Exited | Running.

Section Loop.

Variable R : Runtime.
Variable B : Builtins.
Variable agent : MultiModalRAGAgent.t.

Local Open Scope cli_scope.

(** [obj[key]] for a string [key]. *)
Definition subscript (obj : value) (key : string) : outcome value :=
  match obj with
  | VDict entries =>
      match dict_lookup key entries with
      | Some v => Returns v
      | None => Raises (KeyError key)
      end
  | _ => Raises (subscript_other B obj key)
  end.

(** [obj[:n]] *)
Definition slice_to (obj : value) (n : Z) : outcome value :=
  match obj with
  | VList items => Returns (VList (firstn (Z.to_nat n) items))
  | _ => slice_other B obj n
  end.

(** The line of one example, and the line of one source. *)
Definition numbered (i : Z) (text : string) : string :=
  "   " ++ string_of_Z i ++ ". " ++ text.

Definition source_line (i : Z) (title : value) (relevance : string)
  : string :=
  numbered i (py_str R title ++ " (relevance: " ++ relevance ++ ")").

(** [for i, q in enumerate(example_queries, i): print(...)] *)
Fixpoint show_examples (i : Z) (queries : list string) : Cli unit :=
  match queries with
  | [] => cret tt
  | q :: rest => print (numbered i q) ;;; show_examples (i + 1) rest
  end.

(** [for i, source in enumerate(sources, i): print(...)] *)
Fixpoint show_sources (i : Z) (sources : list value) : Cli unit :=
  match sources with
  | [] => cret tt
  | source :: rest =>
      title <- clift (subscript source "title") ;;
      score <- clift (subscript source "score") ;;
      relevance <- clift (format_spec B score ".4f") ;;
      print (source_line i title relevance) ;;;
      show_sources (i + 1) rest
  end.

(** What is shown of a result of [chat]: the answer, then the first three
    sources if there are any. *)
Definition show (result : value) : Cli unit :=
  response <- clift (subscript result "response") ;;
  print (agent_prefix ++ py_str R response) ;;;
  listed <- clift (py_get result "sources" VNone) ;;
  if py_truthy listed then
    print sources_header ;;;
    sources <- clift (subscript result "sources") ;;
    top <- clift (slice_to sources 3) ;;
    items <- clift (py_iter top) ;;
    show_sources 1 items
  else cret tt.

(** The body of the [try] block, from the line that was read. *)
Definition body (raw : string) : Cli control :=
  let user_input := str_strip B raw in
  if String.eqb user_input EmptyString then cret Continue
  else if existsb (String.eqb (str_lower B user_input)) quit_words then
    print goodbye ;;; cret Break
  else if String.eqb (str_lower B user_input) "help" then
    print help_header ;;;
    show_examples 1 example_queries ;;;
    cret Continue
  else
    print searching ;;;
    result <- run (MultiModalRAGAgent.chat_default R agent user_input) ;;
    show result ;;;
    cret Continue.

(** One pass of the [while] loop: [input] writes its prompt, then returns
    a line, or raises [EOFError] at the end of the input, or is interrupted
    by Ctrl-C. *)
Definition turn (key : option keystroke) : Cli control :=
  write (Prompt prompt) ;;;
  match key with
  | Some (Line raw) =>
      ctry (body raw)
           (fun e => print (error_prefix ++ exn_str R e) ;;; cret Continue)
  | Some CtrlC => print interrupted ;;; cret Break
  | None => print (error_prefix ++ exn_str R EOFError) ;;; cret Continue
  end.

(** The [while True] loop, watched for [fuel] passes over the keys that
    remain to be read. *)
Fixpoint loop (fuel : nat) (stdin : list keystroke) : Cli status :=
  match fuel with
  | O => cret Running
  | S fuel' =>
      c <- turn (hd_error stdin) ;;
      match c with
      | Break => cret Exited
      | Continue => loop fuel' (tl stdin)
      end
  end.

(** The lines printed before the loop. *)
Definition banner : Cli unit :=
  print (newline ++ repeated "=" 70) ;;;
  print title_line ;;;
  print (repeated "=" 70) ;;;
  print (newline ++ "This agent can answer questions about BMW sustainability content") ;;;
  print "including videos, audio, images, and PDF documents." ;;;
  print (newline ++ "Type 'quit' or 'exit' to end the session.") ;;;
  print "Type 'help' for example queries." ;;;
  print (repeated "-" 70).

(** What a typed line is to the loop. *)
Definition is_blank (raw : string) : bool :=
  String.eqb (str_strip B raw) EmptyString.

Definition is_quit (raw : string) : bool :=
  negb (is_blank raw)
  && existsb (String.eqb (str_lower B (str_strip B raw))) quit_words.

Definition is_help (raw : string) : bool :=
  negb (is_blank raw) && negb (is_quit raw)
  && String.eqb (str_lower B (str_strip B raw)) "help".

Definition is_query (raw : string) : bool :=
  negb (is_blank raw) && negb (is_quit raw) && negb (is_help raw).

(** The keys that end the session. *)
Definition ends_session (key : keystroke) : bool :=
  match key with
  | Line raw => is_quit raw
  | CtrlC => true
  end.

(** The queries the loop gets to in [fuel] passes: the lines that are
    neither blank nor a command, stripped, up to the key that ends the
    session. *)
Fixpoint queries_read (fuel : nat) (stdin : list keystroke) : list string :=
  match fuel, stdin with
  | S fuel', Line raw :: rest =>
      if is_quit raw then []
      else if is_query raw then str_strip B raw :: queries_read fuel' rest
      else queries_read fuel' rest
  | _, _ => []
  end.

(** The lines of the sources that are shown, numbered from [i]. *)
Fixpoint source_lines (i : Z) (shown : list (value * string))
  : list string :=
  match shown with
  | [] => []
  | (title, relevance) :: rest =>
      source_line i title relevance :: source_lines (i + 1) rest
  end.

End Loop.

(** The built-ins on ASCII text, for the sessions below. *)
Module AsciiText.

Definition is_space (c : ascii) : bool :=
  let n := nat_of_ascii c in
  ((9 <=? n) && (n <=? 13) || (28 <=? n) && (n <=? 32))%nat%bool.

Fixpoint lstrip (s : string) : string :=
  match s with
  | String c rest => if is_space c then lstrip rest else s
  | EmptyString => EmptyString
  end.

Fixpoint rstrip (s : string) : string :=
  match s with
  | String c rest =>
      match rstrip rest with
      | EmptyString => if is_space c then EmptyString
                       else String c EmptyString
      | kept => String c kept
      end
  | EmptyString => EmptyString
  end.

Definition strip (s : string) : string := rstrip (lstrip s).

Definition lower_char (c : ascii) : ascii :=
  let n := nat_of_ascii c in
  if ((65 <=? n) && (n <=? 90))%nat%bool then ascii_of_nat (n + 32) else c.

Fixpoint lower (s : string) : string :=
  match s with
  | String c rest => String (lower_char c) (lower rest)
  | EmptyString => EmptyString
  end.

(** [format(v, spec)] on the scores of the sessions below. *)
Definition format (v : value) (spec : string) : outcome string :=
  match v with
  | VInt 0 => Returns "0.0000"
  | VFloat _ => Returns "0.8700"
  | _ =>
      Raises (Exn "TypeError"
                  ("unsupported format string passed to "
                   ++ type_name v ++ ".__format__"))
  end.

Definition builtins : Builtins :=
  {| str_strip := strip;
     str_lower := lower;
     format_spec := format;
     slice_other := fun v _ =>
       Raises (Exn "TypeError"
                   ("'" ++ type_name v ++ "' object is not subscriptable"));
     subscript_other := fun v _ =>
       Exn "TypeError"
           ("'" ++ type_name v ++ "' object is not subscriptable") |}.

(** A result with four sources. *)
Definition four_sources : list value :=
  [ VDict [("title", VStr "a"); ("score", VInt 0)];
    VDict [("title", VStr "b"); ("score", VInt 0)];
    VDict [("title", VStr "c"); ("score", VInt 0)];
    VDict [("title", VStr "d"); ("score", VInt 0)] ].

Definition listing : list (string * value) :=
  [ ("response", VStr "ok"); ("sources", VList four_sources) ].

End AsciiText.

End Cli.

(* ================================================================== *)
(** ** Start-up: [__init__] and [_initialize_clients] *)
(* ================================================================== *)

Module Startup.

(** The double quote. *)
Definition dq : string := String (ascii_of_nat 34) EmptyString.

(** The system prompt of the agent. *)
Definition SYSTEM_PROMPT : string :=
  newline
  ++ "You are a professional RAG-based assistant whose context comes exclusively from a database in Azure AI Search." ++ newline
  ++ EmptyString ++ newline
  ++ "Always follow these rules:" ++ newline
  ++ EmptyString ++ newline
  ++ "1. Answer strictly from the context provided. Do not invent, assume, or add details outside the given context." ++ newline
  ++ "2. If no relevant information is available in the context, politely say so." ++ newline
  ++ "3. Do not include any external links, citations, or references unless they are explicitly present in the context object." ++ newline
  ++ "4. Context format: The system will pass a Python list of objects, each containing:" ++ newline
  ++ "   {" ++ newline
  ++ "     " ++ dq ++ "chunk" ++ dq ++ ": " ++ dq ++ "the content (text, JSON, transcript, or description)" ++ dq ++ "," ++ newline
  ++ "     " ++ dq ++ "title" ++ dq ++ ": " ++ dq ++ "the document title" ++ dq ++ "," ++ newline
  ++ "     " ++ dq ++ "score" ++ dq ++ ": " ++ dq ++ "the relevancy score" ++ dq ++ EmptyString ++ newline
  ++ "   }" ++ newline
  ++ "   These are the top matches based on cosine similarity with the user query." ++ newline
  ++ "5. Style & tone:" ++ newline
  ++ "   - Respond in a professional, natural way, as if conversing with a human." ++ newline
  ++ "   - Structure answers clearly and concisely." ++ newline
  ++ "   - If the context contains a field such as 'url', 'video_url', or 'image_url', include it as a clickable hyperlink in your response." ++ newline
  ++ "   - Reference the source document titles when appropriate to help users understand where the information comes from." ++ newline
  ++ EmptyString ++ newline
  ++ "Your role is to act like a knowledgeable human assistant who can reference the provided information smoothly and contextually, across any modality (text, image, video, or audio)." ++ newline.

(** [s.rstrip(c)] for a single character [c]. *)
Fixpoint rstrip_char (c : ascii) (s : string) : string :=
  match s with
  | EmptyString => EmptyString
  | String a rest =>
      match rstrip_char c rest with
      | EmptyString => if Ascii.eqb a c then EmptyString
                       else String a EmptyString
      | kept => String a kept
      end
  end.

(** [os.getenv(name, default)] *)
Definition getenv_or (R : Runtime) (name default : string) : string :=
  match os_getenv R name with
  | Some v => v
  | None => default
  end.

(** The keyword arguments [AzureOpenAI] is called with.  The token
    provider is known by its scope. *)
Record ClientArgs : Type := {
  api_key : option (option string);
  azure_ad_token_provider : option string;
  api_version : string;
  azure_endpoint : option string
}.

(** The two constructors of the Azure libraries. *)
Record Constructors : Type := {
  DefaultAzureCredential : outcome unit;
  AzureOpenAI : ClientArgs -> outcome unit
}.

(** What start-up does, in order. *)
Inductive step : Type :=
| NewCredential
| NewClient (args : ClientArgs)
| Printed (text : string).

(** The instance after [__init__]: its configuration, and whether
    [self.credential] and [self.openai_client] are set. *)
Record Instance : Type := {
  config : MultiModalRAGAgent.t;
  credential : bool;
  openai_client : bool
}.

Definition entra_line : string := "‚úÖ Agent initialized with Entra ID authentication".
Definition key_line : string := "‚úÖ Agent initialized with API Key authentication".

Section Init.

Variable R : Runtime.
Variable B : Cli.Builtins.
Variable K : Constructors.

(** The attributes [__init__] reads from the environment. *)
Definition configuration : MultiModalRAGAgent.t :=
  {| MultiModalRAGAgent.azure_ai_endpoint := os_getenv R "AZURE_AI_ENDPOINT";
     MultiModalRAGAgent.embedding_model :=
       getenv_or R "EMBEDDING_MODEL_NAME" "text-embedding-3-large";
     MultiModalRAGAgent.chat_model := getenv_or R "CHAT_MODEL_NAME" "gpt-4o";
     MultiModalRAGAgent.search_endpoint :=
       rstrip_char "/"
         (Cli.str_strip B
            (getenv_or R "SEARCH_SERVICE_ENDPOINT" EmptyString));
     MultiModalRAGAgent.search_index :=
       getenv_or R "SEARCH_SERVICE_INDEX_NAME" "multi-modal-rag-index";
     MultiModalRAGAgent.auth_mode :=
       Cli.str_lower B (getenv_or R "AUTH_MODE" "entra");
     MultiModalRAGAgent.system_prompt := SYSTEM_PROMPT |}.

(** [_initialize_clients(self)] *)
Definition _initialize_clients (self : MultiModalRAGAgent.t)
  : list step * outcome Instance :=
  if String.eqb (MultiModalRAGAgent.auth_mode self) "entra" then
    match DefaultAzureCredential K with
    | Raises e => ([NewCredential], Raises e)
    | Returns _ =>
        let args :=
          {| api_key := None;
             azure_ad_token_provider :=
               Some "https://cognitiveservices.azure.com/.default";
             api_version := "2024-02-15-preview";
             azure_endpoint := MultiModalRAGAgent.azure_ai_endpoint self |}
        in
        match AzureOpenAI K args with
        | Raises e => ([NewCredential; NewClient args], Raises e)
        | Returns _ =>
            ([NewCredential; NewClient args; Printed entra_line],
             Returns {| config := self;
                        credential := true;
                        openai_client := true |})
        end
    end
  else
    let args :=
      {| api_key := Some (os_getenv R "AZURE_AI_API_KEY");
         azure_ad_token_provider := None;
         api_version := "2024-02-15-preview";
         azure_endpoint := MultiModalRAGAgent.azure_ai_endpoint self |}
    in
    match AzureOpenAI K args with
    | Raises e => ([NewClient args], Raises e)
    | Returns _ =>
        ([NewClient args; Printed key_line],
         Returns {| config := self;
                    credential := false;
                    openai_client := true |})
    end.

(** [__init__(self)], and [create_agent()], which only calls it. *)
Definition __init__ : list step * outcome Instance :=
  _initialize_clients configuration.

Definition create_agent : list step * outcome Instance := __init__.

End Init.

(** An environment that sets the search endpoint and the mode. *)
Definition environment (endpoint mode : string) (name : string)
  : option string :=
  if String.eqb name "SEARCH_SERVICE_ENDPOINT" then Some endpoint
  else if String.eqb name "AUTH_MODE" then Some mode
  else None.

Definition configured (endpoint mode : string) : Runtime :=
  {| embeddings_create := embeddings_create Scenario.healthy;
     credential_get_token := credential_get_token Scenario.healthy;
     os_getenv := environment endpoint mode;
     requests_post := requests_post Scenario.healthy;
     chat_completions_create := chat_completions_create Scenario.healthy;
     json_dumps := json_dumps Scenario.healthy;
     builtins_repr := builtins_repr Scenario.healthy |}.

Definition constructing : Constructors :=
  {| DefaultAzureCredential := Returns tt;
     AzureOpenAI := fun _ => Returns tt |}.

End Startup.

(* ================================================================== *)
(** ** The interactive session *)
(* ================================================================== *)

Module Session.

(** The lines that start-up printed, as they reach the terminal. *)
Definition printed (steps : list Startup.step) : list Cli.written :=
  flat_map (fun s => match s with
                     | Startup.Printed text => [Cli.Print text]
                     | _ => []
                     end) steps.

(** [create_agent()], called from the session: what it prints goes to the
    terminal, and what it raises is raised. *)
Definition create_agent (R : Runtime) (B : Cli.Builtins)
                        (K : Startup.Constructors)
  : Cli.Cli MultiModalRAGAgent.t :=
  fun st =>
    let (steps, o) := Startup.create_agent R B K in
    (match o with
     | Returns instance => Returns (Startup.config instance)
     | Raises e => Raises e
     end,
     (fst st, (snd st ++ printed steps)%list)).

(** [run_interactive_cli()]: the banner, the agent, the loop.  The agent is
    created outside the [try] block of the loop: a constructor that raises
    ends the session with its exception. *)
Definition run_interactive_cli (R : Runtime) (B : Cli.Builtins)
                               (K : Startup.Constructors)
                               (fuel : nat) (stdin : list Cli.keystroke)
  : Cli.Cli Cli.status :=
  Cli.cbind Cli.banner
    (fun _ => Cli.cbind (create_agent R B K)
                (fun agent => Cli.loop R B agent fuel stdin)).

End Session.

(* ================================================================== *)
(** ** Descriptions used by the statements below *)
(* ================================================================== *)

(** A call that carries what [chat] was given: for the embedding call, the
    message; for the search request, the limit. *)
Definition carries (user_message : string) (top_k : Z) (ev : Event) : Prop :=
  match ev with
  | EmbeddingsCreate text _ => text = user_message
  | RequestsPost _ _ body =>
      exists query_embedding,
        body = MultiModalRAGAgent.search_body query_embedding top_k
  | _ => True
  end.

(** A source that can be shown: a record with a [title], and a [score]
    that [format] accepts. *)
Definition showable (B : Cli.Builtins) (source : value)
                    (line : value * string) : Prop :=
  exists entries score,
    source = VDict entries
    /\ dict_lookup "title" entries = Some (fst line)
    /\ dict_lookup "score" entries = Some score
    /\ Cli.format_spec B score ".4f" = Returns (snd line).

(* ================================================================== *)
(** ** Equations of the monad *)
(* ================================================================== *)

Section MonadFacts.

Context {A B : Type}.

Lemma bind_returns (m : Py A) (k : A -> Py B) (log log' : Log) (a : A) :
  m log = (Returns a, log') -> bind m k log = k a log'.
Proof. intros H. unfold bind. now rewrite H. Qed.

Lemma bind_raises (m : Py A) (k : A -> Py B) (log log' : Log) (e : PyExn) :
  m log = (Raises e, log') -> bind m k log = (Raises e, log').
Proof. intros H. unfold bind. now rewrite H. Qed.

Lemma try_returns (m : Py A) (h : PyExn -> Py A) (log log' : Log) (a : A) :
  m log = (Returns a, log') -> try_except m h log = (Returns a, log').
Proof. intros H. unfold try_except. now rewrite H. Qed.

Lemma try_raises (m : Py A) (h : PyExn -> Py A) (log log' : Log) (e : PyExn) :
  m log = (Raises e, log') -> try_except m h log = h e log'.
Proof. intros H. unfold try_except. now rewrite H. Qed.

End MonadFacts.

Arguments bind_returns {A B m} k {log log' a} _.
Arguments bind_raises {A B m} k {log log' e} _.
Arguments try_returns {A m} h {log log' a} _.
Arguments try_raises {A m} h {log log' e} _.

Lemma extends_refl (log : Log) : extends log log.
Proof. exists []. now rewrite app_nil_r. Qed.

Lemma extends_trans (l1 l2 l3 : Log) :
  extends l1 l2 -> extends l2 l3 -> extends l1 l3.
Proof.
  intros [a ->] [b ->]. exists (a ++ b)%list. now rewrite app_assoc.
Qed.

(* ================================================================== *)
(** ** The orchestrator, case by case *)
(* ================================================================== *)

Section ChatCases.

Import MultiModalRAGAgent.

Variable R : Runtime.
Variable self : MultiModalRAGAgent.t.
Variable user_message : string.
Variable top_k : Z.
Variable log : Log.

Lemma chat_when_stages_return (context : value) (response : option string)
                              (log' : Log) :
  all_stages_return R self user_message top_k log context response log' ->
  chat R self user_message top_k log
    = (Returns (success_envelope response context user_message), log').
Proof.
  intros [emb l1 l2 Hembed Hsearch Hgen].
  unfold chat. apply try_returns.
  rewrite (bind_returns _ Hembed).
  rewrite (bind_returns _ Hsearch).
  now rewrite (bind_returns _ Hgen).
Qed.

Lemma chat_when_stage_raises (st : stage) (e : PyExn) (log' : Log) :
  stage_raises R self user_message top_k log st e log' ->
  chat R self user_message top_k log
    = (Returns (error_envelope R e user_message), log').
Proof.
  intros Hrun. unfold chat.
  erewrite try_raises; [reflexivity|].
  inversion Hrun as [e' l' Hembed
                    | emb l1 e' l' Hembed Hsearch
                    | emb l1 ctx l2 e' l' Hembed Hsearch Hgen]; subst.
  - now apply bind_raises.
  - rewrite (bind_returns _ Hembed). now apply bind_raises.
  - rewrite (bind_returns _ Hembed), (bind_returns _ Hsearch).
    now apply bind_raises.
Qed.

(** Every run is of one of the two kinds. *)
Lemma run_cases :
  (exists context response log',
      all_stages_return R self user_message top_k log context response log')
  \/ (exists st e log',
      stage_raises R self user_message top_k log st e log').
Proof.
  destruct (_generate_embedding R self user_message log)
    as [[emb|e] l1] eqn:Hembed.
  2:{ right. exists Embed, e, l1. now constructor. }
  destruct (_search_index R self emb top_k l1) as [[ctx|e] l2] eqn:Hsearch.
  2:{ right. exists Search, e, l2. now apply search_raises with emb l1. }
  destruct (_generate_response R self user_message ctx l2)
    as [[r|e] l3] eqn:Hgen.
  - left. exists ctx, r, l3. now apply stages_return with emb l1 l2.
  - right. exists Generate, e, l3.
    now apply generate_raises with emb l1 ctx l2.
Qed.

(** And never of both. *)
Lemma run_kinds_exclusive (context : value) (response : option string)
                          (l : Log)
                          (st : stage) (e : PyExn) (l' : Log) :
  all_stages_return R self user_message top_k log context response l ->
  stage_raises R self user_message top_k log st e l' ->
  False.
Proof.
  intros [emb l1 l2 Hembed Hsearch Hgen] Hraise.
  inversion Hraise as [e' k Hembed'
                      | emb' k1 e' k Hembed' Hsearch'
                      | emb' k1 ctx' k2 e' k Hembed' Hsearch' Hgen']; subst.
  - congruence.
  - rewrite Hembed in Hembed'. injection Hembed' as <- <-. congruence.
  - rewrite Hembed in Hembed'. injection Hembed' as <- <-.
    rewrite Hsearch in Hsearch'. injection Hsearch' as <- <-. congruence.
Qed.

End ChatCases.

Arguments chat_when_stages_return {R self user_message top_k log
                                   context response log'} _.
Arguments chat_when_stage_raises {R self user_message top_k log st e log'} _.
Arguments run_kinds_exclusive {R self user_message top_k log
                               context response l st e l'} _ _.

(* ================================================================== *)
(** ** The response envelope *)
(* ================================================================== *)

Import MultiModalRAGAgent.

(** C1. In a run of [chat] where the embedding, search and generation
    stages all return, the [sources] entry of the envelope is the value the
    search stage returned and the generation stage received: the same
    records in the same order, nothing dropped and nothing re-sorted. *)
Theorem chat_sources_are_search_results
  (R : Runtime) (self : MultiModalRAGAgent.t)
  (user_message : string) (top_k : Z) (log l1 l2 l3 : Log)
  (query_embedding context : value) (response : option string) :
  _generate_embedding R self user_message log
    = (Returns query_embedding, l1) ->
  _search_index R self query_embedding top_k l1 = (Returns context, l2) ->
  _generate_response R self user_message context l2
    = (Returns response, l3) ->
  exists envelope,
    chat R self user_message top_k log = (Returns (VDict envelope), l3)
    /\ dict_lookup "sources" envelope = Some context.
Proof.
  intros Hembed Hsearch Hgen.
  exists [ ("response", py_optional response); ("sources", context);
           ("query", VStr user_message) ].
  split; [|reflexivity].
  apply chat_when_stages_return.
  exact (stages_return _ _ _ _ _ _ _ _ _ _ _ Hembed Hsearch Hgen).
Qed.

Lemma chat_sources_are_search_results_witness :
  exists l3 envelope,
    chat Scenario.healthy Scenario.agent Scenario.question 5 []
      = (Returns (VDict envelope), l3)
    /\ dict_lookup "sources" envelope
       = Some (VList [ VDict [ ("chunk", VStr "BMW pursues circularity via...");
                               ("title", VStr "Sustainability Report 2023");
                               ("score", VFloat 0.87%float) ] ]).
Proof.
  eexists.
  eapply (chat_sources_are_search_results
            Scenario.healthy Scenario.agent Scenario.question 5 []);
    cbv; reflexivity.
Defined.

(** C2. Whichever stage raises, and whatever it raises, [chat] returns: the
    envelope has an empty [sources], a [response] that is the apology
    followed by the exception's text, the [query], and an [error] entry with
    the exception's text.  No run of [chat] ends in an exception. *)
Theorem chat_catches_stage_exceptions
  (R : Runtime) (self : MultiModalRAGAgent.t)
  (user_message : string) (top_k : Z) (log : Log) :
  (exists envelope log',
      chat R self user_message top_k log = (Returns envelope, log'))
  /\ forall st e log',
      stage_raises R self user_message top_k log st e log' ->
      chat R self user_message top_k log
        = (Returns
             (VDict [ ("response",
                       VStr ("I encountered an error while processing your request: "
                             ++ exn_str R e));
                      ("sources", VList []);
                      ("query", VStr user_message);
                      ("error", VStr (exn_str R e)) ]),
           log').
Proof.
  split.
  - destruct (run_cases R self user_message top_k log)
      as [(ctx & r & l & Hrun) | (st & e & l & Hrun)].
    + eexists _, _. exact (chat_when_stages_return Hrun).
    + eexists _, _. exact (chat_when_stage_raises Hrun).
  - intros st e log' Hrun. exact (chat_when_stage_raises Hrun).
Qed.

Lemma chat_catches_stage_exceptions_witness :
  chat Scenario.unauthorized Scenario.agent Scenario.question 5 []
    = (Returns
         (VDict [ ("response",
                   VStr "I encountered an error while processing your request: Error code: 401");
                  ("sources", VList []);
                  ("query", VStr Scenario.question);
                  ("error", VStr "Error code: 401") ]),
       [ EmbeddingsCreate Scenario.question "text-embedding-3-large" ]).
Proof.
  apply (proj2 (chat_catches_stage_exceptions
                  Scenario.unauthorized Scenario.agent Scenario.question 5 [])
               Embed (Exn "AuthenticationError" "Error code: 401")).
  apply embed_raises. reflexivity.
Defined.

(** C3. The [query] entry of the envelope is the message [chat] was called
    with, character for character, whether the run went through or a stage
    raised. *)
Theorem chat_echoes_query
  (R : Runtime) (self : MultiModalRAGAgent.t)
  (user_message : string) (top_k : Z) (log : Log) :
  exists envelope log',
    chat R self user_message top_k log = (Returns (VDict envelope), log')
    /\ dict_lookup "query" envelope = Some (VStr user_message).
Proof.
  destruct (run_cases R self user_message top_k log)
    as [(ctx & r & l & Hrun) | (st & e & l & Hrun)].
  - eexists _, l. split; [exact (chat_when_stages_return Hrun)|reflexivity].
  - eexists _, l. split; [exact (chat_when_stage_raises Hrun)|reflexivity].
Qed.

(** C10. The envelope of a run in which every stage returned has the keys
    [response], [sources], [query] and no other, so no [error]; and the
    envelope has the key [error] exactly when some stage raised. *)
Theorem error_key_marks_failed_runs
  (R : Runtime) (self : MultiModalRAGAgent.t)
  (user_message : string) (top_k : Z) (log : Log) :
  exists envelope log',
    chat R self user_message top_k log = (Returns (VDict envelope), log')
    /\ ((exists context response l,
            all_stages_return R self user_message top_k log
                              context response l) ->
        dict_keys envelope = ["response"; "sources"; "query"]
        /\ dict_contains "error" envelope = false)
    /\ (dict_contains "error" envelope = true <->
        exists st e l, stage_raises R self user_message top_k log st e l).
Proof.
  destruct (run_cases R self user_message top_k log)
    as [(ctx & r & l & Hrun) | (st & e & l & Hrun)].
  - eexists _, l. split; [exact (chat_when_stages_return Hrun)|].
    split; [intros _; now split|].
    split; [discriminate|].
    intros (st & e & l' & Hraise).
    destruct (run_kinds_exclusive Hrun Hraise).
  - eexists _, l. split; [exact (chat_when_stage_raises Hrun)|].
    split.
    + intros (ctx & r & l' & Hok).
      destruct (run_kinds_exclusive Hok Hrun).
    + split; [intros _; now exists st, e, l|reflexivity].
Qed.

Lemma error_key_marks_failed_runs_witness :
  exists envelope log',
    chat Scenario.healthy Scenario.agent Scenario.question 5 []
      = (Returns (VDict envelope), log')
    /\ dict_keys envelope = ["response"; "sources"; "query"]
    /\ dict_contains "error" envelope = false.
Proof.
  destruct (error_key_marks_failed_runs
              Scenario.healthy Scenario.agent Scenario.question 5 [])
    as (envelope & log' & Hchat & Hok & _).
  exists envelope, log'. split; [exact Hchat|].
  apply Hok. eexists _, _, _. eapply stages_return; cbv; reflexivity.
Defined.

(* ================================================================== *)
(** ** What each stage does to the log, and what it can return *)
(* ================================================================== *)

(** Unfolding the next statement of a method body: a [bind] over a [call]
    or over a [lift]. *)
Ltac next_step :=
  unfold bind at 1; first [ unfold call at 1 | unfold lift at 1 ].

Ltac next_step_in H :=
  unfold bind at 1 in H; first [ unfold call at 1 in H | unfold lift at 1 in H ].

(** The run stopped here: [H] says where the log stands. *)
Ltac stops_at H := injection H as _ <-; now eexists.

Section Stages.

Variable R : Runtime.
Variable self : MultiModalRAGAgent.t.

(** The embedding stage makes one call, with the text it was given. *)
Lemma _generate_embedding_log (text : string) (log log' : Log)
                              (o : outcome value) :
  _generate_embedding R self text log = (o, log') ->
  log' = (log ++ [EmbeddingsCreate text (embedding_model self)])%list.
Proof.
  unfold _generate_embedding, bind, call, lift, ret.
  destruct (embeddings_create R text (embedding_model self)) as [resp|e].
  - destruct (first (data resp)); intros [= _ <-]; reflexivity.
  - intros [= _ <-]; reflexivity.
Qed.

(** The generation stage makes one call: the chat model, the two-message
    prompt, the fixed temperature. *)
Lemma _generate_response_log (query : string) (context : value)
                             (log log' : Log) (o : outcome (option string)) :
  _generate_response R self query context log = (o, log') ->
  log' = (log ++ [ChatCompletionsCreate (chat_model self)
                    (prompt_messages R self query context)
                    temperature])%list.
Proof.
  unfold _generate_response, bind, call, lift, ret.
  destruct (chat_completions_create R (chat_model self) _ temperature)
    as [resp|e].
  - destruct (first (choices resp)); intros [= _ <-]; reflexivity.
  - intros [= _ <-]; reflexivity.
Qed.

(** It returns the content of the first choice. *)
Lemma _generate_response_first_choice
  (query : string) (context : value) (log : Log)
  (completion : ChatCompletion) (choice : Choice) (others : list Choice) :
  chat_completions_create R (chat_model self)
    (prompt_messages R self query context) temperature
    = Returns completion ->
  choices completion = choice :: others ->
  fst (_generate_response R self query context log)
    = Returns (content (message choice)).
Proof.
  intros Hcall Hchoices.
  unfold _generate_response, bind, call, lift, ret.
  rewrite Hcall, Hchoices. reflexivity.
Qed.

Lemma search_headers_extends (log log' : Log) (o : outcome value) :
  search_headers R self log = (o, log') -> extends log log'.
Proof.
  unfold search_headers, bind, call, ret.
  destruct (String.eqb (auth_mode self) "entra").
  - destruct (credential_get_token R _); intros [= _ <-]; now eexists.
  - intros [= _ <-]. apply extends_refl.
Qed.

(** Building a record calls nothing. *)
Lemma source_record_log (doc : value) (log log' : Log) (o : outcome value) :
  source_record doc log = (o, log') -> log' = log.
Proof.
  unfold source_record, bind, lift, ret.
  destruct (py_get doc "content_text" _); [|now intros [= _ <-]].
  destruct (py_get doc "document_title" _); [|now intros [= _ <-]].
  destruct (py_get doc "@search.score" _); now intros [= _ <-].
Qed.

Lemma source_records_log (docs : list value) (log log' : Log)
                         (o : outcome (list value)) :
  comprehension source_record docs log = (o, log') -> log' = log.
Proof.
  revert o log'. induction docs as [|doc docs IH]; intros o log' H.
  - now injection H as _ <-.
  - cbn [comprehension] in H. unfold bind at 1 in H.
    destruct (source_record doc log) as [[r|e] l1] eqn:Hdoc;
      apply source_record_log in Hdoc; subst l1.
    + unfold bind at 1 in H.
      destruct (comprehension source_record docs log) as [[rs|e] l2];
        specialize (IH _ _ eq_refl); subst l2; now injection H as _ <-.
    + now injection H as _ <-.
Qed.

Lemma source_record_of_dict (d : list (string * value)) (log : Log) :
  source_record (VDict d) log = (Returns (record_of d), log).
Proof.
  unfold source_record, record_of, bind, lift, ret, py_get.
  destruct (dict_lookup "content_text" d);
    destruct (dict_lookup "document_title" d);
    destruct (dict_lookup "@search.score" d); reflexivity.
Qed.

Lemma source_record_returns_inv (doc r : value) (log log' : Log) :
  source_record doc log = (Returns r, log') ->
  exists d, doc = VDict d /\ r = record_of d.
Proof.
  destruct doc as [| | | | | |d];
    try (unfold source_record, bind, lift; cbn; discriminate).
  rewrite source_record_of_dict. intros [= <- _]. now exists d.
Qed.

Lemma source_records_returns_inv (docs records : list value)
                                 (log log' : Log) :
  comprehension source_record docs log = (Returns records, log') ->
  Forall2 (fun doc r => exists d, doc = VDict d /\ r = record_of d)
          docs records.
Proof.
  revert records log'. induction docs as [|doc docs IH]; intros records log' H.
  - injection H as <- _. constructor.
  - cbn [comprehension] in H. unfold bind at 1 in H.
    destruct (source_record doc log) as [[r|e] l1] eqn:Hdoc; [|discriminate].
    unfold bind at 1 in H.
    destruct (comprehension source_record docs l1) as [[rs|e] l2] eqn:Hrest;
      [|discriminate].
    injection H as <- _. constructor.
    + exact (source_record_returns_inv _ _ _ _ Hdoc).
    + apply source_record_log in Hdoc. subst l1. exact (IH _ _ Hrest).
Qed.

Lemma source_records_of_dicts (ds : list (list (string * value)))
                              (log : Log) :
  comprehension source_record (map VDict ds) log
    = (Returns (map record_of ds), log).
Proof.
  induction ds as [|d ds IH]; [reflexivity|].
  cbn [comprehension map].
  rewrite (bind_returns _ (source_record_of_dict d log)).
  now rewrite (bind_returns _ IH).
Qed.

(** A search stage that returns went through every step. *)
Lemma _search_index_returns_inv (query_embedding : value) (top_k : Z)
                                (log log' : Log) (context : value) :
  _search_index R self query_embedding top_k log = (Returns context, log') ->
  exists headers l1 response parsed results docs records,
    search_headers R self log = (Returns headers, l1)
    /\ requests_post R (search_url self) headers
         (search_body query_embedding top_k) = Returns response
    /\ raise_for_status response = Returns tt
    /\ json response = Returns parsed
    /\ py_get parsed "value" (VList []) = Returns results
    /\ py_iter results = Returns docs
    /\ Forall2 (fun doc r => exists d, doc = VDict d /\ r = record_of d)
               docs records
    /\ context = VList records.
Proof.
  unfold _search_index. unfold bind at 1.
  destruct (search_headers R self log) as [[headers|e] l1] eqn:Hh;
    [|discriminate].
  next_step.
  destruct (requests_post R (search_url self) headers _)
    as [response|e] eqn:Hpost; [|discriminate].
  next_step.
  destruct (raise_for_status response) as [[]|e] eqn:Hstatus; [|discriminate].
  next_step.
  destruct (json response) as [parsed|e] eqn:Hjson; [|discriminate].
  next_step.
  destruct (py_get parsed "value" (VList [])) as [results|e] eqn:Hget;
    [|discriminate].
  next_step.
  destruct (py_iter results) as [docs|e] eqn:Hiter; [|discriminate].
  unfold bind at 1.
  destruct (comprehension source_record docs _) as [[records|e] l2] eqn:Hrec;
    [|discriminate].
  intros [= <- _].
  exists headers, l1, response, parsed, results, docs, records.
  repeat split; try assumption.
  exact (source_records_returns_inv _ _ _ _ Hrec).
Qed.

Lemma _search_index_extends (query_embedding : value) (top_k : Z)
                            (log log' : Log) (o : outcome value) :
  _search_index R self query_embedding top_k log = (o, log') ->
  extends log log'.
Proof.
  unfold _search_index. unfold bind at 1.
  destruct (search_headers R self log) as [[headers|e] l1] eqn:Hh;
    apply search_headers_extends in Hh; [|now intros [= _ <-]].
  intros H. apply (extends_trans _ _ _ Hh). clear Hh.
  next_step_in H.
  destruct (requests_post R _ headers _) as [response|e]; [|stops_at H].
  next_step_in H.
  destruct (raise_for_status response) as [[]|e]; [|stops_at H].
  next_step_in H.
  destruct (json response) as [parsed|e]; [|stops_at H].
  next_step_in H.
  destruct (py_get parsed "value" (VList [])) as [results|e]; [|stops_at H].
  next_step_in H.
  destruct (py_iter results) as [docs|e]; [|stops_at H].
  unfold bind at 1 in H.
  destruct (comprehension source_record docs _) as [[records|e] l2] eqn:Hrec;
    apply source_records_log in Hrec; subst l2; stops_at H.
Qed.

End Stages.

(* ================================================================== *)
(** ** Failures of the embedding stage *)
(* ================================================================== *)

(** C5, as the specification words it, fails: the embedding service raises
    an exception whose text is empty, and the [error] entry of the envelope
    is the empty string. *)
Lemma embedding_failure_with_empty_text :
  _generate_embedding Scenario.silent_failure Scenario.agent
                      Scenario.question []
    = (Raises (Exn "Exception" EmptyString),
       [ EmbeddingsCreate Scenario.question "text-embedding-3-large" ])
  /\ chat Scenario.silent_failure Scenario.agent Scenario.question 5 []
     = (Returns
          (VDict [ ("response",
                    VStr "I encountered an error while processing your request: ");
                   ("sources", VList []);
                   ("query", VStr Scenario.question);
                   ("error", VStr EmptyString) ]),
        [ EmbeddingsCreate Scenario.question "text-embedding-3-large" ]).
Proof. split; reflexivity. Qed.

(** C5, amended.  When the embedding stage raises, the envelope has an
    [error] entry, which holds the text of the exception, and its [sources]
    is the empty list. *)
Theorem embedding_failure_envelope
  (R : Runtime) (self : MultiModalRAGAgent.t)
  (user_message : string) (top_k : Z) (log log' : Log) (e : PyExn) :
  _generate_embedding R self user_message log = (Raises e, log') ->
  exists envelope,
    chat R self user_message top_k log = (Returns (VDict envelope), log')
    /\ dict_contains "error" envelope = true
    /\ dict_lookup "error" envelope = Some (VStr (exn_str R e))
    /\ dict_lookup "sources" envelope = Some (VList []).
Proof.
  intros Hembed.
  eexists. split.
  - apply (chat_when_stage_raises (st := Embed) (e := e)).
    apply embed_raises. exact Hembed.
  - repeat split.
Qed.

Lemma embedding_failure_envelope_witness :
  exists envelope,
    chat Scenario.unauthorized Scenario.agent Scenario.question 5 []
      = (Returns (VDict envelope),
         [ EmbeddingsCreate Scenario.question "text-embedding-3-large" ])
    /\ dict_contains "error" envelope = true
    /\ dict_lookup "error" envelope = Some (VStr "Error code: 401")
    /\ dict_lookup "sources" envelope = Some (VList []).
Proof.
  apply (embedding_failure_envelope
           Scenario.unauthorized Scenario.agent Scenario.question 5 [] _
           (Exn "AuthenticationError" "Error code: 401")).
  reflexivity.
Defined.

(* ================================================================== *)
(** ** The message is not validated *)
(* ================================================================== *)

(** C6, as the specification words it, fails: called with the empty
    message, [chat] embeds it and goes on through the search and the
    generation, four calls in all, and answers without an [error]. *)
Lemma chat_runs_the_pipeline_on_the_empty_message :
  exists envelope later,
    chat Scenario.healthy Scenario.agent EmptyString 5 []
      = (Returns (VDict envelope),
         EmbeddingsCreate EmptyString "text-embedding-3-large" :: later)
    /\ dict_contains "error" envelope = false
    /\ List.length later = 3%nat.
Proof. eexists _, _. repeat split. Qed.

(** C6, amended.  [chat] validates nothing, emptiness included: whatever
    the message, the first thing a run does is to call the embedding
    service with that very message. *)
Theorem chat_embeds_any_message
  (R : Runtime) (self : MultiModalRAGAgent.t)
  (user_message : string) (top_k : Z) (log : Log) :
  exists later,
    snd (chat R self user_message top_k log)
      = (log ++ EmbeddingsCreate user_message (embedding_model self)
             :: later)%list.
Proof.
  destruct (run_cases R self user_message top_k log)
    as [(ctx & r & l & Hrun) | (st & e & l & Hrun)].
  - rewrite (chat_when_stages_return Hrun). cbn [snd].
    destruct Hrun as [emb l1 l2 Hembed Hsearch Hgen].
    apply _generate_embedding_log in Hembed.
    apply _search_index_extends in Hsearch. destruct Hsearch as [a ->].
    apply _generate_response_log in Hgen. subst l l1.
    eexists. rewrite <- !app_assoc. reflexivity.
  - rewrite (chat_when_stage_raises Hrun). cbn [snd].
    inversion Hrun as [e' l' Hembed
                      | emb l1 e' l' Hembed Hsearch
                      | emb l1 ctx l2 e' l' Hembed Hsearch Hgen]; subst.
    + apply _generate_embedding_log in Hembed. subst l. now exists [].
    + apply _generate_embedding_log in Hembed.
      apply _search_index_extends in Hsearch. destruct Hsearch as [a ->].
      subst l1. eexists. rewrite <- !app_assoc. reflexivity.
    + apply _generate_embedding_log in Hembed.
      apply _search_index_extends in Hsearch. destruct Hsearch as [a ->].
      apply _generate_response_log in Hgen. subst l l1.
      eexists. rewrite <- !app_assoc. reflexivity.
Qed.

(* ================================================================== *)
(** ** The size of [sources] *)
(* ================================================================== *)

(** C4, as the specification words it, fails.  Nothing checks the limit:
    asked for [top_k = -1], the agent forwards it, the search service
    rejects the request and the envelope's [sources] is the empty list,
    whose length is above the limit. *)
Lemma sources_exceed_a_negative_top_k :
  exists envelope log' sources,
    chat Scenario.healthy Scenario.agent Scenario.question (-1) []
      = (Returns (VDict envelope), log')
    /\ dict_lookup "sources" envelope = Some (VList sources)
    /\ (-1 < Z.of_nat (List.length sources))%Z.
Proof. eexists _, _, _. repeat split. Qed.

(** Nor does the agent cut the list it receives: a service that lists two
    matches when asked for one gets both of them into [sources]. *)
Example chat_keeps_every_listed_match :
  exists envelope log' sources,
    chat Scenario.overflowing Scenario.agent Scenario.question 1 []
      = (Returns (VDict envelope), log')
    /\ dict_lookup "sources" envelope = Some (VList sources)
    /\ List.length sources = 2%nat.
Proof. eexists _, _, _. repeat split. Qed.

(** The test double's search service keeps to the contract. *)
Lemma scenario_search_honours_k
  (embed : outcome CreateEmbeddingResponse) (hits : list value)
  (complete : outcome ChatCompletion) :
  honours_k (Scenario.runtime embed hits complete).
Proof.
  intros url headers emb k response parsed results docs.
  cbn [requests_post Scenario.runtime]. unfold Scenario.search.
  replace (Scenario.requested_k (search_body emb k)) with (Some k)
    by reflexivity.
  destruct (0 <? k)%Z eqn:Hk.
  - intros [= <-] _. cbn. intros [= <-] [= <-] [= <-].
    apply Z.ltb_lt in Hk.
    pose proof (firstn_le_length (Z.to_nat k) hits) as Hlen.
    lia.
  - intros [= <-]. cbn. discriminate.
Qed.

(** C4, amended.  For a limit that is not negative and a search service that
    lists at most [k] matches, the [sources] of every envelope is a list of
    at most [top_k] records; and a call that leaves [top_k] out is a call
    with [top_k = 5]. *)
Theorem sources_within_top_k
  (R : Runtime) (self : MultiModalRAGAgent.t)
  (user_message : string) (top_k : Z) (log log' : Log)
  (envelope : list (string * value)) (sources : value) :
  (0 <= top_k)%Z ->
  honours_k R ->
  chat R self user_message top_k log = (Returns (VDict envelope), log') ->
  dict_lookup "sources" envelope = Some sources ->
  (exists records,
      sources = VList records
      /\ (0 <= Z.of_nat (List.length records) <= top_k)%Z)
  /\ chat_default R self user_message = chat R self user_message 5.
Proof.
  intros Hk Hservice Hchat Hsources. split; [|reflexivity].
  destruct (run_cases R self user_message top_k log)
    as [(ctx & r & l & Hrun) | (st & e & l & Hrun)].
  - rewrite (chat_when_stages_return Hrun) in Hchat.
    injection Hchat as <- _. injection Hsources as <-.
    destruct Hrun as [emb l1 l2 _ Hsearch _].
    apply _search_index_returns_inv in Hsearch.
    destruct Hsearch as (headers & l0 & response & parsed & results & docs
                         & records & _ & Hpost & Hstatus & Hjson & Hget
                         & Hiter & Hrecords & ->).
    exists records. split; [reflexivity|].
    apply Forall2_length in Hrecords.
    pose proof (Hservice _ _ _ _ _ _ _ _ Hpost Hstatus Hjson Hget Hiter).
    lia.
  - rewrite (chat_when_stage_raises Hrun) in Hchat.
    injection Hchat as <- _. injection Hsources as <-.
    exists []. split; [reflexivity|]. cbn. lia.
Qed.

Lemma sources_within_top_k_witness :
  exists log' envelope records,
    chat Scenario.healthy Scenario.agent Scenario.question 5 []
      = (Returns (VDict envelope), log')
    /\ dict_lookup "sources" envelope = Some (VList records)
    /\ (0 <= Z.of_nat (List.length records) <= 5)%Z.
Proof.
  eexists _, _.
  destruct (sources_within_top_k
              Scenario.healthy Scenario.agent Scenario.question 5 [] _ _ _
              ltac:(lia)
              (scenario_search_honours_k _ _ _) eq_refl eq_refl)
    as [(records & Heq & Hlen) _].
  exists records. split; [reflexivity|]. split; [|exact Hlen].
  now rewrite <- Heq.
Defined.

(* ================================================================== *)
(** ** The generation stage *)
(* ================================================================== *)

(** C7. The generation stage makes one call to the chat-completion service.
    Its prompt has two messages, the system instruction of the agent and
    then a user message made of the query and of the JSON rendering of the
    retrieved documents; its temperature is 0.7.  When the service answers
    with at least one choice, the stage returns the content of the first. *)
Theorem generation_prompt_and_answer
  (R : Runtime) (self : MultiModalRAGAgent.t)
  (query : string) (context : value) (log : Log) :
  let messages :=
    VList [ VDict [ ("role", VStr "system");
                    ("content", VStr (system_prompt self)) ];
            VDict [ ("role", VStr "user");
                    ("content",
                     VStr ("The user query is: " ++ query ++ newline
                           ++ "The context is: " ++ json_dumps R context 2)) ] ]
  in
  snd (_generate_response R self query context log)
    = (log ++ [ChatCompletionsCreate (chat_model self) messages 0.7%float])%list
  /\ forall completion choice others,
       chat_completions_create R (chat_model self) messages 0.7%float
         = Returns completion ->
       choices completion = choice :: others ->
       fst (_generate_response R self query context log)
         = Returns (content (message choice)).
Proof.
  intros messages. split.
  - destruct (_generate_response R self query context log) as [o l] eqn:H.
    exact (_generate_response_log R self _ _ _ _ _ H).
  - intros completion choice others Hcall Hchoices.
    exact (_generate_response_first_choice R self _ _ _ _ _ _ Hcall Hchoices).
Qed.

Lemma generation_prompt_and_answer_witness :
  fst (_generate_response Scenario.healthy Scenario.agent Scenario.question
                          (VList []) [])
    = Returns
        (Some "Sustainability Report 2023 describes BMW's circularity work.").
Proof.
  refine (proj2 (generation_prompt_and_answer
                   Scenario.healthy Scenario.agent Scenario.question
                   (VList []) [])
                _ {| message := {| content := _ |} |} [] eq_refl eq_refl).
Defined.

(* ================================================================== *)
(** ** The records of the search stage *)
(* ================================================================== *)

(** C9. Whatever the search stage returns is a list of dicts whose keys are
    [chunk], [title], [score], in that order.  A document that is a dict
    always yields its record: each entry is the document's field, or the
    default when the field is missing (the empty string, ["Unknown"], 0).
    Hence, once the service has answered with a list of such documents, the
    stage returns one record per document, whichever fields they lack. *)
Theorem search_records_have_three_keys
  (R : Runtime) (self : MultiModalRAGAgent.t)
  (query_embedding : value) (top_k : Z) (log : Log) :
  (forall context log',
      _search_index R self query_embedding top_k log
        = (Returns context, log') ->
      exists records,
        context = VList records
        /\ Forall (fun r => exists entries,
                       r = VDict entries
                       /\ dict_keys entries = ["chunk"; "title"; "score"])
                  records)
  /\ (forall d l,
         source_record (VDict d) l
         = (Returns
              (VDict [ ("chunk",
                        match dict_lookup "content_text" d with
                        | Some v => v | None => VStr EmptyString
                        end);
                       ("title",
                        match dict_lookup "document_title" d with
                        | Some v => v | None => VStr "Unknown"
                        end);
                       ("score",
                        match dict_lookup "@search.score" d with
                        | Some v => v | None => VInt 0
                        end) ]),
            l))
  /\ (forall headers l1 response parsed documents,
         search_headers R self log = (Returns headers, l1) ->
         requests_post R (search_url self) headers
           (search_body query_embedding top_k) = Returns response ->
         raise_for_status response = Returns tt ->
         json response = Returns (VDict parsed) ->
         dict_lookup "value" parsed = Some (VList (map VDict documents)) ->
         fst (_search_index R self query_embedding top_k log)
           = Returns (VList (map record_of documents))).
Proof.
  split; [|split].
  - intros context log' Hsearch.
    apply _search_index_returns_inv in Hsearch.
    destruct Hsearch as (headers & l0 & response & parsed & results & docs
                         & records & _ & _ & _ & _ & _ & _ & Hrecords & ->).
    exists records. split; [reflexivity|].
    induction Hrecords as [|doc r docs records (d & _ & ->) _ IH];
      constructor; [|exact IH].
    now eexists.
  - intros d l. apply source_record_of_dict.
  - intros headers l1 response parsed documents
           Hheaders Hpost Hstatus Hjson Hvalue.
    unfold _search_index.
    rewrite (bind_returns _ Hheaders).
    unfold bind at 1, call at 1. rewrite Hpost.
    unfold bind at 1, lift at 1. rewrite Hstatus.
    unfold bind at 1, lift at 1. rewrite Hjson.
    unfold bind at 1, lift at 1, py_get. rewrite Hvalue.
    unfold bind at 1, lift at 1, py_iter.
    rewrite (bind_returns _ (source_records_of_dicts documents _)).
    reflexivity.
Qed.

Lemma search_records_have_three_keys_witness :
  fst (_search_index Scenario.sparse Scenario.agent (VList []) 5 [])
    = Returns
        (VList [ VDict [ ("chunk", VStr EmptyString);
                         ("title", VStr "Unknown");
                         ("score", VFloat 0.5%float) ];
                 VDict [ ("chunk", VStr EmptyString);
                         ("title", VStr "Unknown");
                         ("score", VInt 0) ] ]).
Proof.
  refine (proj2 (proj2 (search_records_have_three_keys
                          Scenario.sparse Scenario.agent (VList []) 5 []))
                _ _ _ _ [ [("@search.score", VFloat 0.5%float)]; [] ]
                eq_refl eq_refl eq_refl eq_refl eq_refl).
Defined.

(* ================================================================== *)
(** ** The [POST /chat] handler *)
(* ================================================================== *)

Section Handler.

Variable R : Runtime.
Variable agent : MultiModalRAGAgent.t.
Variable request : ChatRequest.t.
Variable log : Log.

(** The handler after a run that went through: the envelope, as it is. *)
Lemma handler_when_stages_return (context : value)
                                 (response : option string) (log' : Log) :
  all_stages_return R agent (ChatRequest.message request)
                    (ChatRequest.top_k request) log context response log' ->
  App.chat R agent request log
    = (Returns (success_envelope response context
                                 (ChatRequest.message request)), log').
Proof.
  intros Hrun. unfold App.chat. apply try_returns.
  rewrite (bind_returns _ (chat_when_stages_return Hrun)). reflexivity.
Qed.

(** The handler after a stage raised.  The [HTTPException] raised in the
    [try] block is caught by the handler's own [except Exception] and
    raised again with its [str()] for detail: the status code and a colon
    come in front of the error text. *)
Lemma handler_when_stage_raises (st : stage) (e : PyExn) (log' : Log) :
  stage_raises R agent (ChatRequest.message request)
               (ChatRequest.top_k request) log st e log' ->
  App.chat R agent request log
    = (Raises (HTTPException 500 (VStr ("500: " ++ exn_str R e))), log').
Proof.
  intros Hrun. unfold App.chat.
  match goal with
  | |- try_except ?body _ log = _ =>
      assert (Hbody : body log
                      = (Raises (HTTPException 500 (VStr (exn_str R e))), log'))
  end.
  { rewrite (bind_returns _ (chat_when_stage_raises Hrun)). reflexivity. }
  rewrite (try_raises _ Hbody). reflexivity.
Qed.

End Handler.

Arguments handler_when_stages_return {R agent request log
                                      context response log'} _.
Arguments handler_when_stage_raises {R agent request log st e log'} _.




(* ================================================================== *)
(** ** The calls of a run *)
(* ================================================================== *)

Section Calls.

Variable R : Runtime.
Variable self : MultiModalRAGAgent.t.

Let scope : string := "https://search.azure.com/.default".

Lemma search_headers_entra (log : Log) :
  String.eqb (auth_mode self) "entra" = true ->
  search_headers R self log
  = (match credential_get_token R scope with
     | Returns tok =>
         Returns (VDict [ ("Content-Type", VStr "application/json");
                          ("Authorization", VStr ("Bearer " ++ token tok)) ])
     | Raises e => Raises e
     end,
     (log ++ [GetToken scope])%list).
Proof.
  intros Hmode. unfold search_headers. rewrite Hmode.
  unfold bind, call, ret. fold scope.
  now destruct (credential_get_token R scope).
Qed.

Lemma search_headers_key (log : Log) :
  String.eqb (auth_mode self) "entra" = false ->
  search_headers R self log
  = (Returns (VDict [ ("Content-Type", VStr "application/json");
                      ("api-key",
                       match os_getenv R "SEARCH_SERVICE_API_KEY" with
                       | Some key => VStr key
                       | None => VNone
                       end) ]),
     log).
Proof. intros Hmode. unfold search_headers. now rewrite Hmode. Qed.

(** The calls of [search_headers]: the token request, in Entra mode. *)
Lemma search_headers_log (log log' : Log) (o : outcome value) :
  search_headers R self log = (o, log') ->
  log' = (log ++ (if String.eqb (auth_mode self) "entra"
                  then [GetToken scope] else []))%list.
Proof.
  destruct (String.eqb (auth_mode self) "entra") eqn:Hmode.
  - rewrite (search_headers_entra _ Hmode). now intros [= _ <-].
  - rewrite (search_headers_key _ Hmode). intros [= _ <-].
    now rewrite app_nil_r.
Qed.

Lemma _search_index_headers_raise (query_embedding : value) (top_k : Z)
                                  (log l1 : Log) (e : PyExn) :
  search_headers R self log = (Raises e, l1) ->
  _search_index R self query_embedding top_k log = (Raises e, l1).
Proof. intros Hh. unfold _search_index. now rewrite (bind_raises _ Hh). Qed.

(** Once the headers are there the request is sent, and it is the last
    call of the stage. *)
Lemma _search_index_posts (query_embedding : value) (top_k : Z)
                          (log l1 : Log) (headers : value) :
  search_headers R self log = (Returns headers, l1) ->
  snd (_search_index R self query_embedding top_k log)
  = (l1 ++ [RequestsPost (search_url self) headers
              (search_body query_embedding top_k)])%list.
Proof.
  intros Hh.
  destruct (_search_index R self query_embedding top_k log) as [o l'] eqn:H.
  cbn [snd]. unfold _search_index in H. rewrite (bind_returns _ Hh) in H.
  next_step_in H.
  destruct (requests_post R _ headers _) as [response|e];
    [|now injection H as _ <-].
  next_step_in H.
  destruct (raise_for_status response) as [[]|e]; [|now injection H as _ <-].
  next_step_in H.
  destruct (json response) as [parsed|e]; [|now injection H as _ <-].
  next_step_in H.
  destruct (py_get parsed "value" (VList [])) as [results|e];
    [|now injection H as _ <-].
  next_step_in H.
  destruct (py_iter results) as [docs|e]; [|now injection H as _ <-].
  unfold bind at 1 in H.
  destruct (comprehension source_record docs _) as [[records|e] l2] eqn:Hrec;
    apply source_records_log in Hrec; subst l2; now injection H as _ <-.
Qed.

(** The calls of the search stage. *)
Lemma _search_index_log (query_embedding : value) (top_k : Z)
                        (log log' : Log) (o : outcome value) :
  _search_index R self query_embedding top_k log = (o, log') ->
  (exists e,
      search_headers R self log = (Raises e, log') /\ o = Raises e)
  \/ (exists headers l1,
         search_headers R self log = (Returns headers, l1)
         /\ log' = (l1 ++ [RequestsPost (search_url self) headers
                             (search_body query_embedding top_k)])%list).
Proof.
  intros H.
  destruct (search_headers R self log) as [[headers|e] l1] eqn:Hh.
  - right. exists headers, l1. split; [reflexivity|].
    pose proof (_search_index_posts query_embedding top_k _ _ _ Hh) as Hlog.
    rewrite H in Hlog. exact Hlog.
  - left. exists e.
    rewrite (_search_index_headers_raise query_embedding top_k _ _ _ Hh) in H.
    injection H as <- <-. now split.
Qed.

End Calls.

Section ChatCalls.

Variable R : Runtime.
Variable self : MultiModalRAGAgent.t.
Variable user_message : string.
Variable top_k : Z.
Variable log : Log.

Let embed_call : Event :=
  EmbeddingsCreate user_message (embedding_model self).

Let token_calls : list Event :=
  if String.eqb (auth_mode self) "entra"
  then [GetToken "https://search.azure.com/.default"] else [].

Let post_call (headers query_embedding : value) : Event :=
  RequestsPost (search_url self) headers (search_body query_embedding top_k).

Let complete_call (context : value) : Event :=
  ChatCompletionsCreate (chat_model self)
    (prompt_messages R self user_message context) temperature.

(** How far a run of [chat] got, and the calls it made on the way. *)
Lemma chat_calls :
  exists added,
    snd (chat R self user_message top_k log) = (log ++ added)%list
    /\ ((exists e l',
            _generate_embedding R self user_message log = (Raises e, l')
            /\ added = [embed_call])
        \/ (exists emb l1 e l',
               _generate_embedding R self user_message log
                 = (Returns emb, l1)
               /\ search_headers R self l1 = (Raises e, l')
               /\ added = embed_call :: token_calls)
        \/ (exists emb l1 headers l1' e,
               _generate_embedding R self user_message log
                 = (Returns emb, l1)
               /\ search_headers R self l1 = (Returns headers, l1')
               /\ fst (_search_index R self emb top_k l1) = Raises e
               /\ added = (embed_call :: token_calls
                           ++ [post_call headers emb])%list)
        \/ (exists emb l1 headers l1' context l2,
               _generate_embedding R self user_message log
                 = (Returns emb, l1)
               /\ search_headers R self l1 = (Returns headers, l1')
               /\ _search_index R self emb top_k l1 = (Returns context, l2)
               /\ added = (embed_call :: token_calls
                           ++ [post_call headers emb;
                               complete_call context])%list)).
Proof.
  assert (Hsnd : forall st e l (Hrun : stage_raises R self user_message top_k
                                                    log st e l),
             snd (chat R self user_message top_k log) = l)
    by (intros st e l Hrun; now rewrite (chat_when_stage_raises Hrun)).
  destruct (_generate_embedding R self user_message log)
    as [[emb|e] l1] eqn:Hembed;
    pose proof (_generate_embedding_log R self _ _ _ _ Hembed) as Hl1.
  2:{ exists [embed_call]. split.
      - rewrite (Hsnd Embed e l1); [exact Hl1|now constructor].
      - left. now exists e, l1. }
  destruct (_search_index R self emb top_k l1) as [[ctx|e] l2] eqn:Hsearch;
    pose proof (_search_index_log R self _ _ _ _ _ Hsearch) as Hl2.
  - destruct Hl2 as [(e & _ & [=]) | (headers & l1' & Hh & Hl2)].
    pose proof (search_headers_log R self _ _ _ Hh) as Hl1'.
    destruct (_generate_response R self user_message ctx l2)
      as [[r|e] l3] eqn:Hgen;
      pose proof (_generate_response_log R self _ _ _ _ _ Hgen) as Hl3.
    + exists (embed_call :: token_calls
              ++ [post_call headers emb; complete_call ctx])%list.
      split.
      * rewrite (chat_when_stages_return
                   (stages_return _ _ _ _ _ _ _ _ _ _ _ Hembed Hsearch Hgen)).
        cbn [snd]. subst l3 l2 l1' l1. fold token_calls.
        now rewrite <- !app_assoc.
      * right; right; right. now exists emb, l1, headers, l1', ctx, l2.
    + exists (embed_call :: token_calls
              ++ [post_call headers emb; complete_call ctx])%list.
      split.
      * rewrite (Hsnd Generate e l3);
          [|exact (generate_raises _ _ _ _ _ _ _ _ _ _ _ Hembed Hsearch Hgen)].
        subst l3 l2 l1' l1. fold token_calls. now rewrite <- !app_assoc.
      * right; right; right. now exists emb, l1, headers, l1', ctx, l2.
  - assert (Hchat : snd (chat R self user_message top_k log) = l2)
      by (apply (Hsnd Search e);
          exact (search_raises _ _ _ _ _ _ _ _ _ Hembed Hsearch)).
    destruct Hl2 as [(e' & Hh & _) | (headers & l1' & Hh & Hl2)];
      pose proof (search_headers_log R self _ _ _ Hh) as Hl1'.
    + exists (embed_call :: token_calls). split.
      * rewrite Hchat, Hl1', Hl1. fold token_calls.
        now rewrite <- app_assoc.
      * right; left. now exists emb, l1, e', l2.
    + exists (embed_call :: token_calls ++ [post_call headers emb])%list.
      split.
      * rewrite Hchat, Hl2, Hl1', Hl1. fold token_calls.
        now rewrite <- !app_assoc.
      * right; right; left. exists emb, l1, headers, l1', e.
        now rewrite Hsearch.
Qed.

End ChatCalls.

(** The embedding stage returns the vector of the first item. *)
Lemma _generate_embedding_first
  (R : Runtime) (self : MultiModalRAGAgent.t) (text : string) (log : Log)
  (response : CreateEmbeddingResponse) (item : Embedding)
  (others : list Embedding) :
  embeddings_create R text (embedding_model self) = Returns response ->
  data response = item :: others ->
  _generate_embedding R self text log
  = (Returns (embedding item),
     (log ++ [EmbeddingsCreate text (embedding_model self)])%list).
Proof.
  intros Hcall Hdata. unfold _generate_embedding, bind, call, lift, ret.
  now rewrite Hcall, Hdata.
Qed.

(** X1. A run of [chat] calls its collaborators in one fixed order, the
    embedding service, then the credential provider when the agent
    authenticates with Entra ID, then the search service, then the
    chat-completion service, and stops somewhere along that list: at least
    the embedding service is called, none is called twice, none is called
    out of turn. *)
Theorem chat_calls_in_order
  (R : Runtime) (self : MultiModalRAGAgent.t)
  (user_message : string) (top_k : Z) (log : Log) :
  exists added rest,
    snd (chat R self user_message top_k log) = (log ++ added)%list
    /\ added <> []
    /\ (map service_of added ++ rest)%list = full_run self.
Proof.
  destruct (chat_calls R self user_message top_k log)
    as (added & Hsnd & Hcases).
  exists added. unfold full_run.
  destruct Hcases
    as [(e & l' & _ & ->)
       | [(emb & l1 & e & l' & _ & _ & ->)
         | [(emb & l1 & headers & l1' & e & _ & _ & _ & ->)
           | (emb & l1 & headers & l1' & ctx & l2 & _ & _ & _ & ->)]]];
    destruct (String.eqb (auth_mode self) "entra");
    eexists; (split; [exact Hsnd|]); (split; [discriminate|]);
    cbn; reflexivity.
Qed.

(** X2. When the embedding stage or the search stage raises, the run ends
    without any call to the chat-completion service; when it is the
    embedding stage, the embedding call is the only call of the run. *)
Theorem failed_retrieval_skips_completion
  (R : Runtime) (self : MultiModalRAGAgent.t)
  (user_message : string) (top_k : Z) (log log' : Log)
  (st : stage) (e : PyExn) :
  stage_raises R self user_message top_k log st e log' ->
  st <> Generate ->
  exists added,
    snd (chat R self user_message top_k log) = (log ++ added)%list
    /\ Forall (fun ev => service_of ev <> CompletionService) added
    /\ (st = Embed ->
        added = [EmbeddingsCreate user_message (embedding_model self)]).
Proof.
  intros Hrun Hst.
  destruct (chat_calls R self user_message top_k log)
    as (added & Hsnd & Hcases).
  exists added. split; [exact Hsnd|].
  destruct Hcases
    as [(e1 & l' & Hembed & ->)
       | [(emb & l1 & e1 & l' & Hembed & Hh & ->)
         | [(emb & l1 & headers & l1' & e1 & Hembed & Hh & Hsearch & ->)
           | (emb & l1 & headers & l1' & ctx & l2
              & Hembed & Hh & Hsearch & ->)]]].
  - split; [|reflexivity]. repeat constructor. discriminate.
  - split.
    + destruct (String.eqb (auth_mode self) "entra");
        repeat constructor; discriminate.
    + intros ->. inversion Hrun; congruence.
  - split.
    + destruct (String.eqb (auth_mode self) "entra");
        repeat constructor; discriminate.
    + intros ->. inversion Hrun; congruence.
  - exfalso.
    inversion Hrun as [e' l' Hembed'
                      | emb' k1 e' l' Hembed' Hsearch'
                      | emb' k1 ctx' k2 e' l' Hembed' Hsearch' Hgen']; subst.
    + congruence.
    + rewrite Hembed in Hembed'. injection Hembed' as <- <-. congruence.
    + now apply Hst.
Qed.

Lemma failed_retrieval_skips_completion_witness :
  exists added,
    snd (chat Scenario.unauthorized Scenario.agent Scenario.question 5 [])
      = added
    /\ Forall (fun ev => service_of ev <> CompletionService) added
    /\ added = [EmbeddingsCreate Scenario.question "text-embedding-3-large"].
Proof.
  destruct (failed_retrieval_skips_completion
              Scenario.unauthorized Scenario.agent Scenario.question 5 []
              [EmbeddingsCreate Scenario.question "text-embedding-3-large"]
              Embed (Exn "AuthenticationError" "Error code: 401")
              (embed_raises Scenario.unauthorized Scenario.agent
                            Scenario.question 5 [] _ _ eq_refl)
              ltac:(discriminate))
    as (added & Hsnd & Hnone & Honly).
  exists added. split; [exact Hsnd|]. split; [exact Hnone|].
  now apply Honly.
Defined.

(** X3. When the embedding service answers, the search request of the run
    goes to the index's search URL and asks for the [top_k] nearest
    neighbours of the first vector of that answer: [k] is the caller's
    [top_k], as it came, and the vector is not touched. *)
Theorem chat_searches_with_first_embedding
  (R : Runtime) (self : MultiModalRAGAgent.t)
  (user_message : string) (top_k : Z) (log added : Log)
  (response : CreateEmbeddingResponse) (item : Embedding)
  (others : list Embedding) (url : string) (headers body : value) :
  embeddings_create R user_message (embedding_model self)
    = Returns response ->
  data response = item :: others ->
  snd (chat R self user_message top_k log) = (log ++ added)%list ->
  In (RequestsPost url headers body) added ->
  url = search_url self
  /\ body = VDict [ ("count", VBool true);
                    ("select", VStr "content_text, document_title");
                    ("vectorQueries",
                     VList [ VDict [ ("vector", embedding item);
                                     ("k", VInt top_k);
                                     ("fields", VStr "content_embedding");
                                     ("kind", VStr "vector") ] ]) ].
Proof.
  intros Hcall Hdata Hsnd Hin.
  pose proof (_generate_embedding_first R self user_message log
                response item others Hcall Hdata) as Hfirst.
  destruct (chat_calls R self user_message top_k log)
    as (added' & Hsnd' & Hcases).
  rewrite Hsnd in Hsnd'. apply app_inv_head in Hsnd'. subst added'.
  assert (Htok : forall toks : list Event,
             toks = (if String.eqb (auth_mode self) "entra"
                     then [GetToken "https://search.azure.com/.default"]
                     else []) ->
             ~ In (RequestsPost url headers body) toks).
  { intros toks ->. destruct (String.eqb (auth_mode self) "entra");
      cbn; intuition discriminate. }
  destruct Hcases
    as [(e1 & l' & Hembed & ->)
       | [(emb & l1 & e1 & l' & Hembed & Hh & ->)
         | [(emb & l1 & hs & l1' & e1 & Hembed & Hh & Hsearch & ->)
           | (emb & l1 & hs & l1' & ctx & l2
              & Hembed & Hh & Hsearch & ->)]]];
    rewrite Hfirst in Hembed; try discriminate;
    injection Hembed as <- <-;
    (destruct Hin as [Hin|Hin]; [discriminate|]).
  - destruct (Htok _ eq_refl Hin).
  - apply in_app_or in Hin. destruct Hin as [Hin|[Hin|[]]].
    + destruct (Htok _ eq_refl Hin).
    + injection Hin as <- <- <-. now split.
  - apply in_app_or in Hin. destruct Hin as [Hin|[Hin|[Hin|[]]]].
    + destruct (Htok _ eq_refl Hin).
    + injection Hin as <- <- <-. now split.
    + discriminate.
Qed.

Lemma chat_searches_with_first_embedding_witness :
  "https://example.search.windows.net/indexes/multi-modal-rag-index/docs/search?api-version=2023-11-01"
    = search_url Scenario.agent
  /\ search_body (VList [VFloat 0.25%float; VFloat (-0.5)%float]) 3
     = VDict [ ("count", VBool true);
               ("select", VStr "content_text, document_title");
               ("vectorQueries",
                VList [ VDict [ ("vector",
                                 VList [VFloat 0.25%float;
                                        VFloat (-0.5)%float]);
                                ("k", VInt 3);
                                ("fields", VStr "content_embedding");
                                ("kind", VStr "vector") ] ]) ].
Proof.
  refine (chat_searches_with_first_embedding
            Scenario.healthy Scenario.agent Scenario.question 3 [] _
            _ _ [] _
            (VDict [ ("Content-Type", VStr "application/json");
                     ("Authorization", VStr "Bearer eyJ0eXAi") ])
            _ eq_refl eq_refl eq_refl _).
  cbv. right; right; left. reflexivity.
Defined.

(* ================================================================== *)
(** ** Authentication of the search request *)
(* ================================================================== *)

(** X4. With any authentication mode other than ["entra"], the search stage
    never asks the credential provider for a token: its one call is the
    search request, whose [api-key] header is the value of
    [SEARCH_SERVICE_API_KEY], and [None] when the variable is not set. *)
Theorem key_mode_search_call
  (R : Runtime) (self : MultiModalRAGAgent.t)
  (query_embedding : value) (top_k : Z) (log : Log) :
  String.eqb (auth_mode self) "entra" = false ->
  snd (_search_index R self query_embedding top_k log)
  = (log ++ [RequestsPost (search_url self)
               (VDict [ ("Content-Type", VStr "application/json");
                        ("api-key",
                         match os_getenv R "SEARCH_SERVICE_API_KEY" with
                         | Some key => VStr key
                         | None => VNone
                         end) ])
               (search_body query_embedding top_k)])%list.
Proof.
  intros Hmode.
  exact (_search_index_posts R self query_embedding top_k log log _
           (search_headers_key R self log Hmode)).
Qed.

Lemma key_mode_search_call_witness :
  snd (_search_index Scenario.healthy Doubles.keyed_agent (VList []) 5 [])
  = [RequestsPost (search_url Doubles.keyed_agent)
       (VDict [ ("Content-Type", VStr "application/json");
                ("api-key", VNone) ])
       (search_body (VList []) 5)].
Proof.
  exact (key_mode_search_call Scenario.healthy Doubles.keyed_agent
           (VList []) 5 [] eq_refl).
Defined.

(** X5. In ["entra"] mode every search starts by asking the credential
    provider for a token for the search scope.  When that raises, the stage
    raises the same exception and no request is sent; when it returns, the
    request carries [Authorization: Bearer] and the token. *)
Theorem entra_mode_search_calls
  (R : Runtime) (self : MultiModalRAGAgent.t)
  (query_embedding : value) (top_k : Z) (log : Log) :
  String.eqb (auth_mode self) "entra" = true ->
  let scope := "https://search.azure.com/.default" in
  (forall e,
      credential_get_token R scope = Raises e ->
      _search_index R self query_embedding top_k log
      = (Raises e, (log ++ [GetToken scope])%list))
  /\ (forall tok,
         credential_get_token R scope = Returns tok ->
         snd (_search_index R self query_embedding top_k log)
         = (log ++ [ GetToken scope;
                     RequestsPost (search_url self)
                       (VDict [ ("Content-Type", VStr "application/json");
                                ("Authorization",
                                 VStr ("Bearer " ++ token tok)) ])
                       (search_body query_embedding top_k) ])%list).
Proof.
  intros Hmode scope. subst scope.
  pose proof (search_headers_entra R self log Hmode) as Hh.
  split.
  - intros e He. rewrite He in Hh.
    exact (_search_index_headers_raise R self _ _ _ _ _ Hh).
  - intros tok Htok. rewrite Htok in Hh.
    rewrite (_search_index_posts R self _ _ _ _ _ Hh).
    now rewrite <- app_assoc.
Qed.

Lemma entra_mode_search_calls_witness :
  _search_index
    (Doubles.world Scenario.embedded
                   (Raises (Exn "CredentialUnavailableError" "no credential"))
                   None Doubles.unavailable Scenario.answered)
    Scenario.agent (VList []) 5 []
  = (Raises (Exn "CredentialUnavailableError" "no credential"),
     [GetToken "https://search.azure.com/.default"]).
Proof.
  exact (proj1 (entra_mode_search_calls
                  (Doubles.world Scenario.embedded
                     (Raises (Exn "CredentialUnavailableError"
                                  "no credential"))
                     None Doubles.unavailable Scenario.answered)
                  Scenario.agent (VList []) 5 [] eq_refl)
               _ eq_refl).
Defined.

(* ================================================================== *)
(** ** Answers of the search service *)
(* ================================================================== *)

Section SearchAnswers.

Variable R : Runtime.
Variable self : MultiModalRAGAgent.t.
Variable query_embedding : value.
Variable top_k : Z.
Variable log l1 : Log.
Variable headers : value.
Variable response : Response.

Hypothesis Hheaders : search_headers R self log = (Returns headers, l1).
Hypothesis Hpost :
  requests_post R (search_url self) headers
    (search_body query_embedding top_k) = Returns response.

Let sent : Log :=
  (l1 ++ [RequestsPost (search_url self) headers
            (search_body query_embedding top_k)])%list.

(** The stage, from the answer on. *)
Lemma _search_index_answered :
  _search_index R self query_embedding top_k log
  = (lift (raise_for_status response) ;;;
     parsed <- lift (json response) ;;
     results <- lift (py_get parsed "value" (VList [])) ;;
     docs <- lift (py_iter results) ;;
     records <- comprehension source_record docs ;;
     ret (VList records)) sent.
Proof.
  unfold _search_index. rewrite (bind_returns _ Hheaders).
  unfold bind at 1, call at 1. now rewrite Hpost.
Qed.

Lemma _search_index_status_raises (e : PyExn) :
  raise_for_status response = Raises e ->
  _search_index R self query_embedding top_k log = (Raises e, sent).
Proof.
  intros Hstatus. rewrite _search_index_answered.
  unfold bind at 1, lift at 1. now rewrite Hstatus.
Qed.

Lemma _search_index_parsed (parsed : value) :
  raise_for_status response = Returns tt ->
  json response = Returns parsed ->
  _search_index R self query_embedding top_k log
  = (results <- lift (py_get parsed "value" (VList [])) ;;
     docs <- lift (py_iter results) ;;
     records <- comprehension source_record docs ;;
     ret (VList records)) sent.
Proof.
  intros Hstatus Hjson. rewrite _search_index_answered.
  unfold bind at 1, lift at 1. rewrite Hstatus.
  unfold bind at 1, lift at 1. now rewrite Hjson.
Qed.

End SearchAnswers.

(** A match that is not a dict ends the comprehension, whatever comes
    before and after it. *)
Lemma source_records_stop_at (good : list (list (string * value)))
                             (bad : value) (later : list value) (log : Log) :
  is_dict bad = false ->
  comprehension source_record (map VDict good ++ bad :: later)%list log
  = (Raises (AttributeError bad "get"), log).
Proof.
  intros Hbad. induction good as [|d good IH].
  - cbn [map app comprehension]. unfold bind at 1.
    destruct bad; try discriminate; reflexivity.
  - cbn [map app comprehension].
    rewrite (bind_returns _ (source_record_of_dict d log)).
    now rewrite (bind_raises _ IH).
Qed.

(** X6. An error status from the search service ends the run there: the
    stage raises what [raise_for_status] raises without reading the body,
    the search request is the last call of the run, and the envelope
    reports the text of that exception. *)
Theorem http_error_ends_the_run
  (R : Runtime) (self : MultiModalRAGAgent.t)
  (user_message : string) (top_k : Z) (log l0 l1 : Log)
  (query_embedding headers : value) (response : Response) (e : PyExn) :
  _generate_embedding R self user_message log
    = (Returns query_embedding, l0) ->
  search_headers R self l0 = (Returns headers, l1) ->
  requests_post R (search_url self) headers
    (search_body query_embedding top_k) = Returns response ->
  raise_for_status response = Raises e ->
  chat R self user_message top_k log
  = (Returns
       (VDict [ ("response",
                 VStr ("I encountered an error while processing your request: "
                       ++ exn_str R e));
                ("sources", VList []);
                ("query", VStr user_message);
                ("error", VStr (exn_str R e)) ]),
     (l1 ++ [RequestsPost (search_url self) headers
               (search_body query_embedding top_k)])%list).
Proof.
  intros Hembed Hheaders Hpost Hstatus.
  apply (chat_when_stage_raises (st := Search) (e := e)).
  apply search_raises with (1 := Hembed).
  exact (_search_index_status_raises R self _ _ _ _ _ _
           Hheaders Hpost e Hstatus).
Qed.

Lemma http_error_ends_the_run_witness :
  chat (Doubles.world Scenario.embedded Doubles.granted None
                      Doubles.unavailable Scenario.answered)
       Doubles.keyed_agent Scenario.question 5 []
  = (Returns
       (VDict [ ("response",
                 VStr "I encountered an error while processing your request: 503 Server Error: Service Unavailable");
                ("sources", VList []);
                ("query", VStr Scenario.question);
                ("error", VStr "503 Server Error: Service Unavailable") ]),
     [ EmbeddingsCreate Scenario.question "text-embedding-3-large";
       RequestsPost (search_url Doubles.keyed_agent)
         (VDict [ ("Content-Type", VStr "application/json");
                  ("api-key", VNone) ])
         (search_body (VList [VFloat 0.25%float; VFloat (-0.5)%float]) 5) ]).
Proof.
  exact (http_error_ends_the_run
           (Doubles.world Scenario.embedded Doubles.granted None
                          Doubles.unavailable Scenario.answered)
           Doubles.keyed_agent Scenario.question 5 [] _ _ _ _ _ _
           eq_refl eq_refl eq_refl eq_refl).
Defined.

(** X7. An answer of the search service that has no [value], or an empty
    one, is an empty result and not a failure: the stage returns the empty
    list, the chat-completion service is still called, with the prompt built
    on the empty list, and the envelope has its answer, an empty [sources]
    and no [error]. *)
Theorem empty_answer_still_generates
  (R : Runtime) (self : MultiModalRAGAgent.t)
  (user_message : string) (top_k : Z) (log l0 l1 : Log)
  (query_embedding headers : value) (response : Response)
  (parsed : list (string * value))
  (completion : ChatCompletion) (choice : Choice) (others : list Choice) :
  _generate_embedding R self user_message log
    = (Returns query_embedding, l0) ->
  search_headers R self l0 = (Returns headers, l1) ->
  requests_post R (search_url self) headers
    (search_body query_embedding top_k) = Returns response ->
  raise_for_status response = Returns tt ->
  json response = Returns (VDict parsed) ->
  dict_lookup "value" parsed = None
  \/ dict_lookup "value" parsed = Some (VList []) ->
  chat_completions_create R (chat_model self)
    (prompt_messages R self user_message (VList [])) temperature
    = Returns completion ->
  choices completion = choice :: others ->
  chat R self user_message top_k log
  = (Returns
       (VDict [ ("response", py_optional (content (message choice)));
                ("sources", VList []);
                ("query", VStr user_message) ]),
     (l1 ++ [ RequestsPost (search_url self) headers
                (search_body query_embedding top_k);
              ChatCompletionsCreate (chat_model self)
                (prompt_messages R self user_message (VList []))
                temperature ])%list).
Proof.
  intros Hembed Hheaders Hpost Hstatus Hjson Hvalue Hcall Hchoices.
  apply chat_when_stages_return.
  apply stages_return with (1 := Hembed)
    (l2 := (l1 ++ [RequestsPost (search_url self) headers
                     (search_body query_embedding top_k)])%list).
  - rewrite (_search_index_parsed R self _ _ _ _ _ _ Hheaders Hpost
               _ Hstatus Hjson).
    unfold bind at 1, lift at 1, py_get.
    now destruct Hvalue as [-> | ->].
  - unfold _generate_response, bind, call, lift, ret.
    rewrite Hcall, Hchoices. now rewrite <- app_assoc.
Qed.

Lemma empty_answer_still_generates_witness :
  exists log',
    chat (Doubles.world Scenario.embedded Doubles.granted None
            (Doubles.answering (VDict [ ("@odata.count", VInt 0) ]))
            Scenario.answered)
         Scenario.agent Scenario.question 5 []
    = (Returns (VDict [ ("response", VStr Scenario.answer);
                        ("sources", VList []);
                        ("query", VStr Scenario.question) ]),
       log').
Proof.
  eexists.
  refine (empty_answer_still_generates
            (Doubles.world Scenario.embedded Doubles.granted None
               (Doubles.answering (VDict [ ("@odata.count", VInt 0) ]))
               Scenario.answered)
            Scenario.agent Scenario.question 5 [] _ _ _ _ _ _
            _ {| message := {| content := Some Scenario.answer |} |} []
            eq_refl eq_refl eq_refl eq_refl eq_refl (or_introl eq_refl)
            eq_refl eq_refl).
Defined.

(** X8. One listed match that is not a JSON object is enough for the search
    stage to fail: it raises the [AttributeError] of calling [get] on that
    match, and returns no record, whatever the matches before and after it
    are. *)
Theorem one_malformed_match_fails_the_search
  (R : Runtime) (self : MultiModalRAGAgent.t)
  (query_embedding : value) (top_k : Z) (log l1 : Log)
  (headers : value) (response : Response)
  (parsed : list (string * value))
  (good : list (list (string * value))) (bad : value) (later : list value) :
  search_headers R self log = (Returns headers, l1) ->
  requests_post R (search_url self) headers
    (search_body query_embedding top_k) = Returns response ->
  raise_for_status response = Returns tt ->
  json response = Returns (VDict parsed) ->
  dict_lookup "value" parsed
    = Some (VList (map VDict good ++ bad :: later)%list) ->
  is_dict bad = false ->
  fst (_search_index R self query_embedding top_k log)
  = Raises (Exn "AttributeError"
                ("'" ++ type_name bad ++ "' object has no attribute 'get'")).
Proof.
  intros Hheaders Hpost Hstatus Hjson Hvalue Hbad.
  rewrite (_search_index_parsed R self _ _ _ _ _ _ Hheaders Hpost
             _ Hstatus Hjson).
  unfold bind at 1, lift at 1, py_get. rewrite Hvalue.
  unfold bind at 1, lift at 1, py_iter.
  now rewrite (bind_raises _ (source_records_stop_at good bad later _ Hbad)).
Qed.

Lemma one_malformed_match_fails_the_search_witness :
  fst (_search_index
         (Doubles.world Scenario.embedded Doubles.granted None
            (Doubles.answering
               (VDict [ ("value",
                         VList [Scenario.report; VNone;
                                Scenario.bare_match]) ]))
            Scenario.answered)
         Scenario.agent (VList []) 5 [])
  = Raises (Exn "AttributeError"
                "'NoneType' object has no attribute 'get'").
Proof.
  refine (one_malformed_match_fails_the_search
            (Doubles.world Scenario.embedded Doubles.granted None
               (Doubles.answering
                  (VDict [ ("value",
                            VList [Scenario.report; VNone;
                                   Scenario.bare_match]) ]))
               Scenario.answered)
            Scenario.agent (VList []) 5 [] _ _ _ _
            [ [ ("@search.score", VFloat 0.87%float);
                ("content_text", VStr "BMW pursues circularity via...");
                ("document_title", VStr "Sustainability Report 2023") ] ]
            VNone [Scenario.bare_match]
            eq_refl eq_refl eq_refl eq_refl eq_refl eq_refl).
Defined.

(** X9. An answer of the wrong shape fails the search stage with the
    interpreter's own error.  A body that is not a JSON object has no
    [get]; a [value] that is null, a boolean or a number cannot be
    iterated. *)
Theorem misshapen_answer_fails_the_search
  (R : Runtime) (self : MultiModalRAGAgent.t)
  (query_embedding : value) (top_k : Z) (log l1 : Log)
  (headers : value) (response : Response) (parsed : value) :
  search_headers R self log = (Returns headers, l1) ->
  requests_post R (search_url self) headers
    (search_body query_embedding top_k) = Returns response ->
  raise_for_status response = Returns tt ->
  json response = Returns parsed ->
  (is_dict parsed = false ->
   fst (_search_index R self query_embedding top_k log)
   = Raises (Exn "AttributeError"
                 ("'" ++ type_name parsed
                  ++ "' object has no attribute 'get'")))
  /\ (forall entries results,
         parsed = VDict entries ->
         dict_lookup "value" entries = Some results ->
         is_iterable results = false ->
         fst (_search_index R self query_embedding top_k log)
         = Raises (Exn "TypeError"
                       ("'" ++ type_name results
                        ++ "' object is not iterable"))).
Proof.
  intros Hheaders Hpost Hstatus Hjson.
  rewrite (_search_index_parsed R self _ _ _ _ _ _ Hheaders Hpost
             _ Hstatus Hjson).
  split.
  - intros Hshape. unfold bind at 1, lift at 1.
    destruct parsed; try discriminate; reflexivity.
  - intros entries results -> Hvalue Hiter.
    unfold bind at 1, lift at 1, py_get. rewrite Hvalue.
    unfold bind at 1, lift at 1.
    destruct results; try discriminate; reflexivity.
Qed.

Lemma misshapen_answer_fails_the_search_witness :
  fst (_search_index
         (Doubles.world Scenario.embedded Doubles.granted None
            (Doubles.answering (VDict [ ("value", VNone) ]))
            Scenario.answered)
         Scenario.agent (VList []) 5 [])
  = Raises (Exn "TypeError" "'NoneType' object is not iterable").
Proof.
  refine (proj2 (misshapen_answer_fails_the_search
                   (Doubles.world Scenario.embedded Doubles.granted None
                      (Doubles.answering (VDict [ ("value", VNone) ]))
                      Scenario.answered)
                   Scenario.agent (VList []) 5 [] _ _ _ _
                   eq_refl eq_refl eq_refl eq_refl)
                _ VNone eq_refl eq_refl eq_refl).
Defined.

(* ================================================================== *)
(** ** Answers that hold nothing *)
(* ================================================================== *)

(** X11. A completion without any choice is a failure of the generation
    stage, and it costs the retrieval: although the search stage returned
    its records, the envelope has an empty [sources], and its [error] is
    the interpreter's [list index out of range]. *)
Theorem empty_completion_drops_the_sources
  (R : Runtime) (self : MultiModalRAGAgent.t)
  (user_message : string) (top_k : Z) (log l1 l2 : Log)
  (query_embedding context : value) (completion : ChatCompletion) :
  _generate_embedding R self user_message log
    = (Returns query_embedding, l1) ->
  _search_index R self query_embedding top_k l1 = (Returns context, l2) ->
  chat_completions_create R (chat_model self)
    (prompt_messages R self user_message context) temperature
    = Returns completion ->
  choices completion = [] ->
  chat R self user_message top_k log
  = (Returns
       (VDict [ ("response",
                 VStr "I encountered an error while processing your request: list index out of range");
                ("sources", VList []);
                ("query", VStr user_message);
                ("error", VStr "list index out of range") ]),
     (l2 ++ [ChatCompletionsCreate (chat_model self)
               (prompt_messages R self user_message context)
               temperature])%list).
Proof.
  intros Hembed Hsearch Hcall Hchoices.
  apply (chat_when_stage_raises (st := Generate) (e := IndexError)).
  apply generate_raises with (1 := Hembed) (2 := Hsearch).
  unfold _generate_response, bind, call, lift.
  now rewrite Hcall, Hchoices.
Qed.

Lemma empty_completion_drops_the_sources_witness :
  exists envelope log',
    chat (Scenario.runtime Scenario.embedded [Scenario.report]
                           Doubles.silent)
         Scenario.agent Scenario.question 5 []
    = (Returns (VDict envelope), log')
    /\ dict_lookup "sources" envelope = Some (VList [])
    /\ dict_lookup "error" envelope = Some (VStr "list index out of range").
Proof.
  eexists _, _. split.
  - refine (empty_completion_drops_the_sources
              (Scenario.runtime Scenario.embedded [Scenario.report]
                                Doubles.silent)
              Scenario.agent Scenario.question 5 [] _ _ _ _ _
              _ _ eq_refl eq_refl); cbv; reflexivity.
  - split; reflexivity.
Defined.

(* ================================================================== *)
(** ** The interactive loop *)
(* ================================================================== *)

Section CliMonad.

Import Cli.

Context {A C : Type}.

Lemma cbind_returns (m : Cli A) (k : A -> Cli C) (st st' : Log * list written)
                    (a : A) :
  m st = (Returns a, st') -> cbind m k st = k a st'.
Proof. intros H. unfold cbind. now rewrite H. Qed.

Lemma cbind_raises (m : Cli A) (k : A -> Cli C) (st st' : Log * list written)
                   (e : PyExn) :
  m st = (Raises e, st') -> cbind m k st = (Raises e, st').
Proof. intros H. unfold cbind. now rewrite H. Qed.

End CliMonad.

Arguments cbind_returns {A C m} k {st st' a} _.
Arguments cbind_raises {A C m} k {st st' e} _.

(** Every call a run of [chat] makes carries what [chat] was given. *)
Lemma chat_events (R : Runtime) (self : MultiModalRAGAgent.t)
                  (user_message : string) (top_k : Z) (log : Log) :
  exists added,
    snd (chat R self user_message top_k log) = (log ++ added)%list
    /\ Forall (carries user_message top_k) added.
Proof.
  destruct (chat_calls R self user_message top_k log)
    as (added & Hsnd & Hcases).
  exists added. split; [exact Hsnd|].
  assert (Htok : Forall (carries user_message top_k)
                   (if String.eqb (auth_mode self) "entra"
                    then [GetToken "https://search.azure.com/.default"]
                    else []))
    by (destruct (String.eqb (auth_mode self) "entra");
        repeat constructor).
  destruct Hcases
    as [(e & l' & _ & ->)
       | [(emb & l1 & e & l' & _ & _ & ->)
         | [(emb & l1 & headers & l1' & e & _ & _ & _ & ->)
           | (emb & l1 & headers & l1' & ctx & l2 & _ & _ & _ & ->)]]].
  - repeat constructor.
  - constructor; [reflexivity|exact Htok].
  - constructor; [reflexivity|]. apply Forall_app. split; [exact Htok|].
    repeat constructor. now exists emb.
  - constructor; [reflexivity|]. apply Forall_app. split; [exact Htok|].
    constructor; [now exists emb|]. repeat constructor.
Qed.

Section CliFacts.

Import Cli.

Variable R : Runtime.
Variable B : Builtins.
Variable agent : MultiModalRAGAgent.t.

Lemma print_run (text : string) (log : Log) (out : list written) :
  print text (log, out) = (Returns tt, (log, (out ++ [Print text])%list)).
Proof. reflexivity. Qed.

Lemma show_examples_run (queries : list string) (i : Z)
                        (log : Log) (out : list written) :
  exists w, show_examples i queries (log, out)
            = (Returns tt, (log, (out ++ w)%list)).
Proof.
  revert i out. induction queries as [|q queries IH]; intros i out.
  - exists []. cbn. now rewrite app_nil_r.
  - cbn [show_examples]. rewrite (cbind_returns _ (print_run _ log out)); cbv beta.
    destruct (IH (i + 1)%Z (out ++ [Print (numbered i q)])%list) as [w Hw].
    exists (Print (numbered i q) :: w).
    etransitivity; [exact Hw|]. now rewrite <- app_assoc.
Qed.

(** Showing the sources that can be shown. *)
Lemma show_sources_run (sources : list value) (shown : list (value * string))
                       (i : Z) (log : Log) (out : list written) :
  Forall2 (fun source line =>
             exists entries score,
               source = VDict entries
               /\ dict_lookup "title" entries = Some (fst line)
               /\ dict_lookup "score" entries = Some score
               /\ format_spec B score ".4f" = Returns (snd line))
          sources shown ->
  show_sources R B i sources (log, out)
  = (Returns tt, (log, (out ++ map Print (source_lines R i shown))%list)).
Proof.
  intros Hshown. revert i out.
  induction Hshown as [|source [title relevance] sources shown
                         (entries & score & -> & Htitle & Hscore & Hformat)
                         _ IH]; intros i out.
  - cbn. now rewrite app_nil_r.
  - cbn [show_sources source_lines map]. cbn [fst snd] in *.
    unfold cbind at 1, clift at 1, subscript. rewrite Htitle.
    unfold cbind at 1, clift at 1, subscript. rewrite Hscore.
    unfold cbind at 1, clift at 1. rewrite Hformat.
    rewrite (cbind_returns _ (print_run _ log out)); cbv beta.
    rewrite IH. now rewrite <- app_assoc.
Qed.

(** Showing calls nothing, and only adds to what is written. *)
Lemma show_sources_log (sources : list value) (i : Z)
                       (log : Log) (out : list written) :
  exists o w, show_sources R B i sources (log, out)
              = (o, (log, (out ++ w)%list)).
Proof.
  revert i out. induction sources as [|source sources IH]; intros i out.
  - exists (Returns tt), []. cbn. now rewrite app_nil_r.
  - cbn [show_sources].
    unfold cbind at 1, clift at 1.
    destruct (subscript B source "title") as [title|e];
      [|exists (Raises e), []; now rewrite app_nil_r].
    unfold cbind at 1, clift at 1.
    destruct (subscript B source "score") as [score|e];
      [|exists (Raises e), []; now rewrite app_nil_r].
    unfold cbind at 1, clift at 1.
    destruct (format_spec B score ".4f") as [relevance|e];
      [|exists (Raises e), []; now rewrite app_nil_r].
    rewrite (cbind_returns _ (print_run _ log out)); cbv beta.
    destruct (IH (i + 1)%Z
                 (out ++ [Print (source_line R i title relevance)])%list)
      as (o & w & Hw).
    exists o, (Print (source_line R i title relevance) :: w).
    rewrite Hw. now rewrite <- app_assoc.
Qed.

Lemma show_log (result : value) (log : Log) (out : list written) :
  exists o w, show R B result (log, out) = (o, (log, (out ++ w)%list)).
Proof.
  unfold show.
  unfold cbind at 1, clift at 1.
  destruct (subscript B result "response") as [response|e];
    [|exists (Raises e), []; now rewrite app_nil_r].
  rewrite (cbind_returns _ (print_run _ log out)); cbv beta.
  set (out1 := (out ++ [Print (agent_prefix ++ py_str R response)])%list).
  assert (Hout : forall o w,
             exists w', (o : outcome unit, (log, (out1 ++ w)%list))
                        = (o, (log, (out ++ w')%list))).
  { intros o w. exists (Print (agent_prefix ++ py_str R response) :: w).
    unfold out1. now rewrite <- app_assoc. }
  assert (Hstop : forall e : PyExn,
             exists o w', (Raises e : outcome unit, (log, out1))
                          = (o, (log, (out ++ w')%list))).
  { intros e. exists (Raises e). destruct (Hout (Raises e) []) as [w' Hw'].
    exists w'. now rewrite app_nil_r in Hw'. }
  unfold cbind at 1, clift at 1.
  destruct (py_get result "sources" VNone) as [listed|e]; [|apply Hstop].
  destruct (py_truthy listed).
  - rewrite (cbind_returns _ (print_run _ log out1)); cbv beta.
    set (out2 := (out1 ++ [Print sources_header])%list).
    assert (Hout2 : forall o w,
               exists o' w', (o : outcome unit, (log, (out2 ++ w)%list))
                             = (o', (log, (out ++ w')%list))).
    { intros o w. exists o.
      destruct (Hout o (Print sources_header :: w)) as [w' Hw'].
      exists w'. rewrite <- Hw'. unfold out2. now rewrite <- app_assoc. }
    assert (Hstop2 : forall e : PyExn,
               exists o w', (Raises e : outcome unit, (log, out2))
                            = (o, (log, (out ++ w')%list))).
    { intros e. destruct (Hout2 (Raises e) []) as (o & w' & Hw').
      exists o, w'. now rewrite app_nil_r in Hw'. }
    unfold cbind at 1, clift at 1.
    destruct (subscript B result "sources") as [sources|e]; [|apply Hstop2].
    unfold cbind at 1, clift at 1.
    destruct (slice_to B sources 3) as [top|e]; [|apply Hstop2].
    unfold cbind at 1, clift at 1.
    destruct (py_iter top) as [items|e]; [|apply Hstop2].
    destruct (show_sources_log items 1 log out2) as (o & w & Hw).
    rewrite Hw. apply Hout2.
  - exists (Returns tt). destruct (Hout (Returns tt) []) as [w' Hw'].
    exists w'. now rewrite app_nil_r in Hw'.
Qed.

(** What a pass of the loop comes to: whether the loop goes on, and where
    the log stands. *)
Let control_after (key : option keystroke) : control :=
  match key with
  | Some k => if ends_session B k then Break else Continue
  | None => Continue
  end.

Let log_after (key : option keystroke) (log : Log) : Log :=
  match key with
  | Some (Line raw) =>
      if is_query B raw
      then snd (chat_default R agent (str_strip B raw) log)
      else log
  | _ => log
  end.

Lemma turn_run (key : option keystroke) (log : Log) (out : list written) :
  exists w,
    turn R B agent key (log, out)
    = (Returns (control_after key),
       (log_after key log, (out ++ Prompt prompt :: w)%list)).
Proof.
  unfold turn.
  assert (Hprompt : write (Prompt prompt) (log, out)
                    = (Returns tt, (log, (out ++ [Prompt prompt])%list)))
    by reflexivity.
  rewrite (cbind_returns _ Hprompt); cbv beta.
  assert (Hw : forall (c : control) (l : Log) w,
             (Returns c, (l, ((out ++ [Prompt prompt]) ++ w)%list))
             = (Returns c, (l, (out ++ Prompt prompt :: w)%list)))
    by (intros c l w; now rewrite <- app_assoc).
  destruct key as [[raw|]|].
  - cbn [control_after log_after ends_session].
    unfold is_query, is_help, is_quit, is_blank, body, ctry.
    destruct (String.eqb (str_strip B raw) EmptyString) eqn:Hblank.
    { exists []. reflexivity. }
    cbn [negb andb].
    destruct (existsb (String.eqb (str_lower B (str_strip B raw)))
                      quit_words) eqn:Hquit.
    { exists [Print goodbye]. cbn [negb]. rewrite <- Hw. reflexivity. }
    cbn [negb andb].
    destruct (String.eqb (str_lower B (str_strip B raw)) "help") eqn:Hhelp.
    { cbn [negb].
      rewrite (cbind_returns _ (print_run _ log _)); cbv beta.
      destruct (show_examples_run example_queries 1 log
                  ((out ++ [Prompt prompt]) ++ [Print help_header])%list)
        as [w Hshow].
      rewrite (cbind_returns _ Hshow); cbv beta.
      exists (Print help_header :: w). cbn [cret].
      now rewrite <- !app_assoc. }
    cbn [negb].
    rewrite (cbind_returns _ (print_run _ log _)); cbv beta.
    unfold cbind at 1, run at 1. cbn [fst snd].
    destruct (chat_default R agent (str_strip B raw) log)
      as [[result|e] log'] eqn:Hchat; cbn [snd].
    + destruct (show_log result log'
                  ((out ++ [Prompt prompt]) ++ [Print searching])%list)
        as (o & w & Hshow).
      destruct o as [[]|e].
      * rewrite (cbind_returns _ Hshow); cbv beta. exists (Print searching :: w).
        cbn [cret]. now rewrite <- !app_assoc.
      * rewrite (cbind_raises _ Hshow); cbv beta.
        rewrite (cbind_returns _ (print_run _ log' _)); cbv beta.
        exists (Print searching
                :: w ++ [Print (error_prefix ++ exn_str R e)])%list.
        cbn [cret]. now rewrite <- !app_assoc.
    + rewrite (cbind_returns _ (print_run _ log' _)); cbv beta.
      exists [Print searching; Print (error_prefix ++ exn_str R e)].
      cbn [cret]. now rewrite <- !app_assoc.
  - exists [Print interrupted]. cbn [control_after log_after ends_session].
    rewrite <- Hw. reflexivity.
  - exists [Print (error_prefix ++ exn_str R EOFError)].
    cbn [control_after log_after]. rewrite <- Hw. reflexivity.
Qed.

Lemma queries_read_nil (fuel : nat) : queries_read B fuel [] = [].
Proof. now destruct fuel. Qed.

(** A session is the runs of [chat] on the queries read, one after the
    other; no exception leaves the loop. *)
Lemma loop_run (fuel : nat) (stdin : list keystroke)
               (log : Log) (out : list written) :
  exists s w,
    loop R B agent fuel stdin (log, out)
    = (Returns s,
       (fold_left (fun l q => snd (chat_default R agent q l))
                  (queries_read B fuel stdin) log,
        (out ++ w)%list)).
Proof.
  revert stdin log out.
  induction fuel as [|fuel IH]; intros stdin log out.
  - exists Running, []. cbn. now rewrite app_nil_r.
  - cbn [loop].
    destruct (turn_run (hd_error stdin) log out) as [w Hturn].
    rewrite (cbind_returns _ Hturn); cbv beta.
    destruct stdin as [|[raw|] stdin];
      cbn [hd_error tl control_after log_after ends_session queries_read].
    + destruct (IH [] log (out ++ Prompt prompt :: w)%list)
        as (s & w' & Hloop).
      rewrite queries_read_nil in Hloop.
      exists s, (Prompt prompt :: w ++ w')%list. rewrite Hloop.
      cbn [fold_left]. now rewrite <- app_assoc.
    + unfold is_query. destruct (is_quit B raw); cbn [negb andb].
      * rewrite andb_false_r. cbn [andb fold_left]. now exists Exited, (Prompt prompt :: w).
      * rewrite andb_true_r.
        destruct (IH stdin
                    (if negb (is_blank B raw) && negb (is_help B raw)
                     then snd (chat_default R agent (str_strip B raw) log)
                     else log)
                    (out ++ Prompt prompt :: w)%list)
          as (s & w' & Hloop).
        exists s, (Prompt prompt :: w ++ w')%list. rewrite Hloop.
        destruct (negb (is_blank B raw) && negb (is_help B raw))%bool;
          cbn [fold_left]; now rewrite <- app_assoc.
    + now exists Exited, (Prompt prompt :: w).
Qed.

Lemma queries_read_in (fuel : nat) (stdin : list keystroke) (q : string) :
  In q (queries_read B fuel stdin) ->
  exists raw,
    In (Line raw) stdin /\ is_query B raw = true /\ q = str_strip B raw.
Proof.
  revert stdin. induction fuel as [|fuel IH]; intros stdin; [intros []|].
  destruct stdin as [|[raw|] stdin]; cbn [queries_read]; try (intros []).
  destruct (is_quit B raw); [intros []|].
  destruct (is_query B raw) eqn:Hquery.
  - intros [<- | Hin].
    + exists raw. split; [now left|]. now split.
    + destruct (IH _ Hin) as (raw' & Hin' & Hq).
      exists raw'. split; [now right|exact Hq].
  - intros Hin. destruct (IH _ Hin) as (raw' & Hin' & Hq).
    exists raw'. split; [now right|exact Hq].
Qed.

Lemma is_query_not_blank (raw : string) :
  is_query B raw = true -> str_strip B raw <> EmptyString.
Proof.
  unfold is_query, is_blank. intros H Hempty. rewrite Hempty in H.
  discriminate.
Qed.

(** The pass that reads a key that ends the session. *)
Lemma turn_ends (key : keystroke) (log : Log) (out : list written) :
  ends_session B key = true ->
  turn R B agent (Some key) (log, out)
  = (Returns Break,
     (log, (out ++ [ Prompt prompt;
                     Print (match key with
                            | Line _ => goodbye
                            | CtrlC => interrupted
                            end) ])%list)).
Proof.
  destruct key as [raw|].
  2:{ intros _. unfold turn, cbind, print, write, cret. cbn [fst snd].
      now rewrite <- app_assoc. }
  cbn [ends_session]. unfold is_quit, is_blank. intros Hquit.
  apply andb_prop in Hquit. destruct Hquit as [Hblank Hquit].
  apply negb_true_iff in Hblank.
  unfold turn, body, ctry, cbind, print, write, cret. cbn [fst snd].
  rewrite Hblank, Hquit. cbn [fst snd]. now rewrite <- app_assoc.
Qed.

(** The pass that reads a query. *)
Lemma turn_query (raw : string) (log log' : Log) (out out' : list written)
                 (result : value) (o : outcome unit) :
  is_query B raw = true ->
  chat_default R agent (str_strip B raw) log = (Returns result, log') ->
  show R B result
       (log', (out ++ [Prompt prompt; Print searching])%list)
    = (o, (log', out')) ->
  turn R B agent (Some (Line raw)) (log, out)
  = (Returns Continue,
     (log',
      match o with
      | Returns _ => out'
      | Raises e => (out' ++ [Print (error_prefix ++ exn_str R e)])%list
      end)).
Proof.
  unfold is_query, is_help, is_quit, is_blank. intros Hquery Hchat Hshow.
  destruct (String.eqb (str_strip B raw) EmptyString) eqn:Hblank;
    [discriminate|].
  destruct (existsb (String.eqb (str_lower B (str_strip B raw))) quit_words)
    eqn:Hquit; [discriminate|].
  destruct (String.eqb (str_lower B (str_strip B raw)) "help") eqn:Hhelp;
    [discriminate|].
  unfold turn, body. rewrite Hblank, Hquit, Hhelp.
  unfold cbind at 1, write at 1. cbn [fst snd].
  unfold ctry. unfold cbind at 1, print at 1, write at 1. cbn [fst snd].
  unfold cbind at 1, run at 1. cbn [fst snd]. rewrite Hchat.
  rewrite <- app_assoc. cbn [app].
  unfold cbind at 1. rewrite Hshow.
  destruct o as [[]|e]; reflexivity.
Qed.

End CliFacts.

Import Cli.

(** X12. A session of the interactive loop is the runs of [chat] on the
    queries it reads, one after the other: each line that is neither blank
    nor a command is stripped and passed to [chat] with the default
    [top_k], blank lines, [help], [quit] and Ctrl-C call nothing, and no
    exception leaves the loop. *)
Theorem session_is_chat_on_each_query
  (R : Runtime) (B : Builtins) (agent : MultiModalRAGAgent.t)
  (fuel : nat) (stdin : list keystroke) (log : Log) (out : list written) :
  (exists s, fst (loop R B agent fuel stdin (log, out)) = Returns s)
  /\ fst (snd (loop R B agent fuel stdin (log, out)))
     = fold_left (fun l q => snd (chat R agent q 5 l))
                 (queries_read B fuel stdin) log.
Proof.
  destruct (loop_run R B agent fuel stdin log out) as (s & w & Hloop).
  rewrite Hloop. split; [now exists s|reflexivity].
Qed.

(** The calls of the runs of [chat] on a list of queries. *)
Lemma chat_on_each_events
  (R : Runtime) (self : MultiModalRAGAgent.t) (top_k : Z)
  (P : Event -> Prop) (queries : list string) (log : Log) :
  (forall q ev, In q queries -> carries q top_k ev -> P ev) ->
  exists added,
    fold_left (fun l q => snd (chat R self q top_k l)) queries log
    = (log ++ added)%list
    /\ Forall P added.
Proof.
  revert log. induction queries as [|q queries IH]; intros log HP.
  - exists []. split; [now rewrite app_nil_r|constructor].
  - cbn [fold_left].
    destruct (chat_events R self q top_k log) as (a1 & -> & Ha1).
    destruct (IH (log ++ a1)%list) as (a2 & -> & Ha2).
    { intros q' ev Hin. apply HP. now right. }
    exists (a1 ++ a2)%list. split; [now rewrite app_assoc|].
    apply Forall_app. split; [|exact Ha2].
    apply Forall_impl with (2 := Ha1). intros ev. apply HP. now left.
Qed.

(** X13. Whatever is typed, the loop never embeds an empty message: the
    text of every embedding call of a session is a typed line, stripped,
    and not empty; and every search request of a session asks for five
    neighbours. *)
Theorem loop_sends_stripped_lines_and_five
  (R : Runtime) (B : Builtins) (agent : MultiModalRAGAgent.t)
  (fuel : nat) (stdin : list keystroke) (log : Log) (out : list written) :
  exists added,
    fst (snd (loop R B agent fuel stdin (log, out))) = (log ++ added)%list
    /\ Forall (fun ev =>
                 match ev with
                 | EmbeddingsCreate text _ =>
                     text <> EmptyString
                     /\ exists raw,
                          In (Line raw) stdin /\ text = str_strip B raw
                 | RequestsPost _ _ body =>
                     exists query_embedding,
                       body = search_body query_embedding 5
                 | _ => True
                 end)
              added.
Proof.
  destruct (loop_run R B agent fuel stdin log out) as (s & w & Hloop).
  rewrite Hloop. cbn [fst snd].
  apply (chat_on_each_events R agent 5).
  intros q ev Hin Hev.
  destruct (queries_read_in B fuel stdin q Hin) as (raw & Hraw & Hquery & ->).
  destruct ev as [text model| | |]; cbn in Hev |- *; try exact I.
  - subst text. split; [now apply is_query_not_blank|now exists raw].
  - exact Hev.
Qed.

(** X14. The first [quit], [exit] or [q], in any letter case [lower]
    undoes, or Ctrl-C, ends the session: what comes after it in the input
    is never read, the loop exits, and the goodbye is the last line. *)
Theorem quit_leaves_the_rest_unread
  (R : Runtime) (B : Builtins) (agent : MultiModalRAGAgent.t)
  (fuel : nat) (before after : list keystroke) (key : keystroke)
  (log : Log) (out : list written) :
  ends_session B key = true ->
  (List.length before < fuel)%nat ->
  loop R B agent fuel (before ++ key :: after)%list (log, out)
  = loop R B agent fuel (before ++ [key])%list (log, out)
  /\ fst (loop R B agent fuel (before ++ key :: after)%list (log, out))
     = Returns Exited
  /\ exists w bye,
       snd (snd (loop R B agent fuel (before ++ key :: after)%list
                      (log, out)))
       = (out ++ w ++ [Print bye])%list
       /\ (bye = goodbye \/ bye = interrupted).
Proof.
  intros Hends. revert fuel log out.
  induction before as [|k before IH]; intros fuel log out Hfuel;
    (destruct fuel as [|fuel]; [inversion Hfuel|]).
  - cbn [app loop hd_error tl].
    rewrite !(cbind_returns _ (turn_ends R B agent key log out Hends)).
    split; [reflexivity|]. split; [reflexivity|].
    exists [Prompt prompt]. eexists. split; [reflexivity|].
    destruct key; [now left|now right].
  - cbn [app loop hd_error tl].
    destruct (turn_run R B agent (Some k) log out) as [w Hturn].
    rewrite !(cbind_returns _ Hturn).
    destruct (ends_session B k) eqn:Hk.
    + split; [reflexivity|]. split; [reflexivity|].
      rewrite (turn_ends R B agent k log out Hk) in Hturn.
      injection Hturn as _ Hout. apply app_inv_head in Hout.
      injection Hout as <-.
      exists [Prompt prompt]. eexists. split; [reflexivity|].
      destruct k; [now left|now right].
    + cbn in Hfuel. apply PeanoNat.lt_S_n in Hfuel.
      destruct (IH fuel
                   (match k with
                    | Line raw =>
                        if is_query B raw
                        then snd (chat_default R agent (str_strip B raw) log)
                        else log
                    | CtrlC => log
                    end)
                   (out ++ Prompt prompt :: w)%list Hfuel)
        as (Hsame & Hexit & w' & bye & Hout & Hbye).
      split; [exact Hsame|]. split; [exact Hexit|].
      exists (Prompt prompt :: w ++ w')%list, bye. split; [|exact Hbye].
      rewrite Hout. rewrite <- ?app_assoc. cbn [app].
      now rewrite <- ?app_assoc.
Qed.

Lemma quit_leaves_the_rest_unread_witness :
  loop Scenario.healthy AsciiText.builtins Scenario.agent 3
       [Line "  "; Line " Exit "; Line Scenario.question] ([], [])
  = (Returns Exited,
     ([], [Prompt prompt; Prompt prompt; Print goodbye])).
Proof.
  etransitivity.
  - exact (proj1 (quit_leaves_the_rest_unread
                    Scenario.healthy AsciiText.builtins Scenario.agent 3
                    [Line "  "] [Line Scenario.question] (Line " Exit ")
                    [] [] eq_refl ltac:(cbn; lia))).
  - reflexivity.
Defined.

(** X15. The end of the input does not end the loop.  As long as no
    [quit] and no Ctrl-C is read, the loop is still running after any
    number of passes; and once the input is exhausted, every pass writes
    the prompt and the error of [input], and calls nothing. *)
Theorem end_of_input_does_not_end_the_loop
  (R : Runtime) (B : Builtins) (agent : MultiModalRAGAgent.t)
  (stdin : list keystroke) :
  forallb (fun key => negb (ends_session B key)) stdin = true ->
  (forall fuel log out,
      fst (loop R B agent fuel stdin (log, out)) = Returns Running)
  /\ (forall passes log out,
         loop R B agent passes [] (log, out)
         = (Returns Running,
            (log,
             (out ++ List.concat
                       (repeat [ Prompt prompt;
                                 Print (error_prefix
                                        ++ "EOF when reading a line") ]
                               passes))%list))).
Proof.
  intros Hstdin. split.
  - intros fuel. revert stdin Hstdin.
    induction fuel as [|fuel IH]; intros stdin Hstdin log out;
      [reflexivity|].
    cbn [loop].
    destruct (turn_run R B agent (hd_error stdin) log out) as [w Hturn].
    rewrite (cbind_returns _ Hturn).
    destruct stdin as [|k stdin]; cbn [hd_error tl].
    + apply IH. reflexivity.
    + cbn [forallb] in Hstdin. apply andb_prop in Hstdin.
      destruct Hstdin as [Hk Hstdin]. apply negb_true_iff in Hk.
      rewrite Hk. now apply IH.
  - intros passes. induction passes as [|passes IH]; intros log out.
    + cbn. now rewrite app_nil_r.
    + cbn [loop hd_error tl repeat List.concat].
      assert (Hturn : turn R B agent None (log, out)
                      = (Returns Continue,
                         (log,
                          (out ++ [ Prompt prompt;
                                    Print (error_prefix
                                           ++ "EOF when reading a line") ])
                          %list))).
      { unfold turn, cbind, print, write, cret. cbn [fst snd exn_str EOFError].
        now rewrite <- app_assoc. }
      rewrite (cbind_returns _ Hturn). rewrite IH.
      now rewrite <- app_assoc.
Qed.

Lemma end_of_input_does_not_end_the_loop_witness :
  fst (loop Scenario.healthy AsciiText.builtins Scenario.agent 40
            [Line "help"; Line ""] ([], []))
  = Returns Running.
Proof.
  exact (proj1 (end_of_input_does_not_end_the_loop
                  Scenario.healthy AsciiText.builtins Scenario.agent
                  [Line "help"; Line ""] eq_refl)
               40%nat [] []).
Defined.

(** X16. Of a result the loop shows the answer and, when [sources] is not
    empty, a header and one numbered line for each of its first three
    records, in their order, with the title and the score to four
    decimals: never more than three, and nothing at all, not even the
    header, for an empty [sources]. *)
Theorem show_lists_the_first_three_sources
  (R : Runtime) (B : Builtins)
  (result : list (string * value)) (response : value)
  (sources : list value) (shown : list (value * string))
  (log : Log) (out : list written) :
  dict_lookup "response" result = Some response ->
  dict_lookup "sources" result = Some (VList sources) ->
  Forall2 (showable B) (firstn 3 sources) shown ->
  show R B (VDict result) (log, out)
  = (Returns tt,
     (log,
      (out ++ Print (agent_prefix ++ py_str R response)
           :: match sources with
              | [] => []
              | _ :: _ =>
                  Print sources_header
                  :: map Print (source_lines R 1 shown)
              end)%list))
  /\ List.length shown = Nat.min 3 (List.length sources).
Proof.
  intros Hresponse Hsources Hshown. split.
  - unfold show.
    unfold cbind at 1, clift at 1, subscript. rewrite Hresponse.
    rewrite (cbind_returns _ (print_run _ log out)); cbv beta.
    unfold cbind at 1, clift at 1, py_get. rewrite Hsources.
    destruct sources as [|source sources].
    + reflexivity.
    + cbn [py_truthy].
      rewrite (cbind_returns _ (print_run _ log _)); cbv beta.
      unfold cbind at 1, clift at 1.
      unfold cbind at 1, clift at 1, slice_to.
      unfold cbind at 1, clift at 1, py_iter.
      change (Z.to_nat 3) with 3%nat.
      rewrite (show_sources_run R B _ shown 1 log _ Hshown).
      now rewrite <- !app_assoc.
  - apply Forall2_length in Hshown. rewrite <- Hshown.
    apply length_firstn.
Qed.

Lemma show_lists_the_first_three_sources_witness :
  show Scenario.healthy AsciiText.builtins (VDict AsciiText.listing) ([], [])
  = (Returns tt,
     ([], [ Print (agent_prefix ++ "ok");
            Print sources_header;
            Print "   1. a (relevance: 0.0000)";
            Print "   2. b (relevance: 0.0000)";
            Print "   3. c (relevance: 0.0000)" ])).
Proof.
  refine (proj1 (show_lists_the_first_three_sources
                   Scenario.healthy AsciiText.builtins AsciiText.listing (VStr "ok")
                   AsciiText.four_sources
                   [ (VStr "a", "0.0000"); (VStr "b", "0.0000");
                     (VStr "c", "0.0000") ]
                   [] [] eq_refl eq_refl _)).
  repeat constructor; eexists _, _; repeat split.
Defined.

(** X17. When a stage of the pipeline raises during a query, the loop shows
    the apology with the text of the exception as the agent's answer, shows
    no sources, and goes on to the next prompt. *)
Theorem failed_query_is_shown_and_the_loop_goes_on
  (R : Runtime) (B : Builtins) (agent : MultiModalRAGAgent.t)
  (raw : string) (log log' : Log) (out : list written)
  (st : stage) (e : PyExn) :
  is_query B raw = true ->
  stage_raises R agent (str_strip B raw) 5 log st e log' ->
  turn R B agent (Some (Line raw)) (log, out)
  = (Returns Continue,
     (log',
      (out ++ [ Prompt prompt;
                Print searching;
                Print (agent_prefix
                       ++ "I encountered an error while processing your request: "
                       ++ exn_str R e) ])%list)).
Proof.
  intros Hquery Hrun.
  pose proof (chat_when_stage_raises Hrun) as Hchat.
  assert (Hshow : forall o,
             show R B (error_envelope R e (str_strip B raw)) (log', o)
             = (Returns tt,
                (log',
                 (o ++ [Print (agent_prefix
                               ++ "I encountered an error while processing your request: "
                               ++ exn_str R e)])%list)))
    by reflexivity.
  rewrite (turn_query R B agent raw log log' out _ _ _ Hquery Hchat
             (Hshow _)).
  now rewrite <- app_assoc.
Qed.

Lemma failed_query_is_shown_and_the_loop_goes_on_witness :
  turn Scenario.unauthorized AsciiText.builtins Scenario.agent
       (Some (Line " why? ")) ([], [])
  = (Returns Continue,
     ([EmbeddingsCreate "why?" "text-embedding-3-large"],
      [ Prompt prompt;
        Print searching;
        Print (agent_prefix
               ++ "I encountered an error while processing your request: Error code: 401") ])).
Proof.
  exact (failed_query_is_shown_and_the_loop_goes_on
           Scenario.unauthorized AsciiText.builtins Scenario.agent
           " why? " [] _ [] Embed
           (Exn "AuthenticationError" "Error code: 401")
           eq_refl
           (embed_raises Scenario.unauthorized Scenario.agent "why?" 5 []
                         _ _ eq_refl)).
Defined.

(** X18. A source whose score [format] refuses costs the display, not the
    session: the lines of the sources before it stay, an error line with
    the text of the exception comes in place of its own line and of the
    lines after it, and the loop goes on. *)
Theorem unformattable_score_ends_the_display
  (R : Runtime) (B : Builtins) (agent : MultiModalRAGAgent.t)
  (raw : string) (log log' : Log) (out : list written)
  (result : list (string * value)) (response : value)
  (before : list value) (shown : list (value * string))
  (entries : list (string * value)) (title score : value)
  (after : list value) (e : PyExn) :
  is_query B raw = true ->
  chat R agent (str_strip B raw) 5 log = (Returns (VDict result), log') ->
  dict_lookup "response" result = Some response ->
  dict_lookup "sources" result
    = Some (VList (before ++ VDict entries :: after)%list) ->
  (List.length before < 3)%nat ->
  Forall2 (showable B) before shown ->
  dict_lookup "title" entries = Some title ->
  dict_lookup "score" entries = Some score ->
  format_spec B score ".4f" = Raises e ->
  turn R B agent (Some (Line raw)) (log, out)
  = (Returns Continue,
     (log',
      (out ++ [ Prompt prompt;
                Print searching;
                Print (agent_prefix ++ py_str R response);
                Print sources_header ]
           ++ map Print (source_lines R 1 shown)
           ++ [Print (error_prefix ++ exn_str R e)])%list)).
Proof.
  intros Hquery Hchat Hresponse Hsources Hbefore Hshown
         Htitle Hscore Hformat.
  assert (Hstop : forall sources i l o,
             show_sources R B i (VDict entries :: sources) (l, o)
             = (Raises e, (l, o))).
  { intros sources i l o. cbn [show_sources].
    unfold cbind at 1, clift at 1, subscript. rewrite Htitle.
    unfold cbind at 1, clift at 1, subscript. rewrite Hscore.
    unfold cbind at 1, clift at 1. now rewrite Hformat. }
  assert (Hlist : forall sources i l o,
             show_sources R B i (before ++ VDict entries :: sources)%list
                          (l, o)
             = (Raises e,
                (l, (o ++ map Print (source_lines R i shown))%list))).
  { intros sources. clear Hbefore Hsources.
    induction Hshown as [|source [t r] before shown
                           (en & sc & -> & Ht & Hs & Hf) _ IH];
      intros i l o.
    - cbn [app source_lines map]. rewrite app_nil_r. apply Hstop.
    - cbn [app show_sources source_lines map]. cbn [fst snd] in *.
      unfold cbind at 1, clift at 1, subscript. rewrite Ht.
      unfold cbind at 1, clift at 1, subscript. rewrite Hs.
      unfold cbind at 1, clift at 1. rewrite Hf.
      rewrite (cbind_returns _ (print_run _ l o)); cbv beta.
      rewrite IH. now rewrite <- app_assoc. }
  assert (Htop : exists sources,
             firstn 3 (before ++ VDict entries :: after)
             = (before ++ VDict entries :: sources)%list).
  { destruct before as [|b1 [|b2 [|b3 before]]]; cbn in Hbefore |- *;
      try lia; eexists; reflexivity. }
  destruct Htop as [sources Htop].
  assert (Hshow :
            show R B (VDict result)
                 (log', (out ++ [Prompt prompt; Print searching])%list)
            = (Raises e,
               (log',
                (out ++ [ Prompt prompt;
                          Print searching;
                          Print (agent_prefix ++ py_str R response);
                          Print sources_header ]
                     ++ map Print (source_lines R 1 shown))%list))).
  { unfold show.
    unfold cbind at 1, clift at 1, subscript. rewrite Hresponse.
    rewrite (cbind_returns _ (print_run _ log' _)); cbv beta.
    unfold cbind at 1, clift at 1, py_get. rewrite Hsources.
    assert (Htruthy : py_truthy (VList (before ++ VDict entries :: after))
                      = true) by (now destruct before).
    rewrite Htruthy.
    rewrite (cbind_returns _ (print_run _ log' _)); cbv beta.
    unfold cbind at 1, clift at 1.
    unfold cbind at 1, clift at 1, slice_to.
    unfold cbind at 1, clift at 1, py_iter.
    change (Z.to_nat 3) with 3%nat. rewrite Htop, Hlist.
    rewrite <- ?app_assoc. cbn [app]. reflexivity. }
  rewrite (turn_query R B agent raw log log' out _ _ _ Hquery Hchat Hshow).
  rewrite <- ?app_assoc. cbn [app]. now rewrite <- ?app_assoc.
Qed.

Lemma unformattable_score_ends_the_display_witness :
  exists log',
    turn Doubles.unscored AsciiText.builtins Scenario.agent
         (Some (Line "why?")) ([], [])
    = (Returns Continue,
       (log',
        [ Prompt prompt;
          Print searching;
          Print (agent_prefix ++ Scenario.answer);
          Print sources_header;
          Print (error_prefix
                 ++ "unsupported format string passed to NoneType.__format__")
        ])).
Proof.
  eexists.
  refine (unformattable_score_ends_the_display
            Doubles.unscored AsciiText.builtins Scenario.agent
            "why?" [] _ []
            [ ("response", VStr Scenario.answer);
              ("sources",
               VList [ VDict [ ("chunk", VStr EmptyString);
                               ("title", VStr "Unknown");
                               ("score", VNone) ] ]);
              ("query", VStr "why?") ]
            (VStr Scenario.answer)
            [] []
            [ ("chunk", VStr EmptyString); ("title", VStr "Unknown");
              ("score", VNone) ]
            (VStr "Unknown") VNone [] _
            eq_refl _ eq_refl eq_refl ltac:(cbn; lia) (Forall2_nil _)
            eq_refl eq_refl eq_refl).
  cbv. reflexivity.
Defined.

(* ================================================================== *)
(** ** Start-up *)
(* ================================================================== *)

Import Startup.

Lemma rstrip_char_no_suffix (c : ascii) (s p : string) :
  rstrip_char c s <> p ++ String c EmptyString.
Proof.
  revert p. induction s as [|a rest IH]; intros p.
  - cbn. destruct p; discriminate.
  - cbn [rstrip_char].
    destruct (rstrip_char c rest) as [|b kept] eqn:Hrest.
    + destruct (Ascii.eqb a c) eqn:Hac.
      * destruct p; discriminate.
      * destruct p as [|x p]; cbn.
        -- intros [= ->]. now rewrite Ascii.eqb_refl in Hac.
        -- intros [= _ H]. destruct p; discriminate.
    + destruct p as [|x p]; cbn.
      * discriminate.
      * intros [= _ H]. exact (IH p H).
Qed.

Lemma rstrip_char_removes_a_run (c : ascii) (s : string) :
  exists n,
    s = rstrip_char c s ++ Cli.repeated (String c EmptyString) n.
Proof.
  induction s as [|a rest (n & IH)].
  - now exists 0%nat.
  - cbn [rstrip_char].
    destruct (rstrip_char c rest) as [|b kept] eqn:Hrest.
    + destruct (Ascii.eqb a c) eqn:Hac.
      * apply Ascii.eqb_eq in Hac. subst a.
        exists (S n). cbn in IH |- *. now rewrite <- IH.
      * exists n. cbn in IH |- *. now rewrite <- IH.
    + exists n. cbn in IH |- *. now rewrite <- IH.
Qed.

Lemma __init___config (R : Runtime) (B : Cli.Builtins) (K : Constructors)
                      (steps : list step) (inst : Instance) :
  __init__ R B K = (steps, Returns inst) ->
  config inst = configuration R B
  /\ credential inst
     = String.eqb (auth_mode (configuration R B)) "entra".
Proof.
  unfold __init__, _initialize_clients.
  destruct (String.eqb (auth_mode (configuration R B)) "entra").
  - destruct (DefaultAzureCredential K); [|discriminate].
    destruct (AzureOpenAI K _); [|discriminate].
    intros [= _ <-]. now split.
  - destruct (AzureOpenAI K _); [|discriminate].
    intros [= _ <-]. now split.
Qed.

(** X19. Whatever [SEARCH_SERVICE_ENDPOINT] holds, the agent that
    [__init__] builds sends its searches to [base/indexes/...], where
    [base] is that value, stripped, without its trailing slashes: only
    slashes are cut from its end, all of them are, and so no second slash
    ever comes before [indexes]. *)
Theorem configured_search_url_has_one_slash
  (R : Runtime) (B : Cli.Builtins) (K : Constructors)
  (steps : list step) (inst : Instance) :
  __init__ R B K = (steps, Returns inst) ->
  exists base slashes,
    search_url (config inst)
    = base ++ "/indexes/" ++ search_index (config inst)
      ++ "/docs/search?api-version=2023-11-01"
    /\ Cli.str_strip B (getenv_or R "SEARCH_SERVICE_ENDPOINT" EmptyString)
       = base ++ Cli.repeated "/" slashes
    /\ forall p, base <> p ++ "/".
Proof.
  intros Hinit. destruct (__init___config R B K steps inst Hinit) as [-> _].
  destruct (rstrip_char_removes_a_run
              "/" (Cli.str_strip B
                     (getenv_or R "SEARCH_SERVICE_ENDPOINT" EmptyString)))
    as [n Hn].
  exists (search_endpoint (configuration R B)), n.
  split; [reflexivity|]. split; [exact Hn|].
  intros p. apply rstrip_char_no_suffix.
Qed.

Lemma configured_search_url_has_one_slash_witness :
  exists base slashes,
    search_url (configuration
                  (configured " https://example.search.windows.net// "
                              "Entra")
                  Cli.AsciiText.builtins)
    = base ++ "/indexes/multi-modal-rag-index/docs/search?api-version=2023-11-01"
    /\ "https://example.search.windows.net//"
       = base ++ Cli.repeated "/" slashes
    /\ forall p, base <> p ++ "/".
Proof.
  exact (configured_search_url_has_one_slash
           (configured " https://example.search.windows.net// " "Entra")
           Cli.AsciiText.builtins constructing _
           {| config :=
                configuration
                  (configured " https://example.search.windows.net// "
                              "Entra")
                  Cli.AsciiText.builtins;
              credential := true;
              openai_client := true |}
           eq_refl).
Defined.

(** X20. Start-up and the search stage agree on the authentication mode.
    In an instance that [__init__] has built, the credential is set exactly
    when start-up has constructed one, and that is exactly when the search
    stage asks the credential provider for a token: no search ever needs a
    credential that was not created. *)
Theorem credential_is_set_when_search_needs_it
  (R : Runtime) (B : Cli.Builtins) (K : Constructors)
  (steps : list step) (inst : Instance) :
  __init__ R B K = (steps, Returns inst) ->
  (credential inst = true <-> In NewCredential steps)
  /\ forall (R' : Runtime) (query_embedding : value) (top_k : Z),
       credential inst = true
       <-> In (GetToken "https://search.azure.com/.default")
              (snd (_search_index R' (config inst) query_embedding top_k [])).
Proof.
  intros Hinit.
  destruct (__init___config R B K steps inst Hinit) as [Hconfig Hcred].
  split.
  - revert Hinit. unfold __init__, _initialize_clients.
    destruct (String.eqb (auth_mode (configuration R B)) "entra").
    + destruct (DefaultAzureCredential K); [|discriminate].
      destruct (AzureOpenAI K _); [|discriminate].
      intros [= <- <-]. cbn. intuition.
    + destruct (AzureOpenAI K _); [|discriminate].
      intros [= <- <-]. cbn. intuition discriminate.
  - intros R' emb k. rewrite Hcred, Hconfig.
    destruct (String.eqb (auth_mode (configuration R B)) "entra") eqn:Hmode.
    + split; [intros _|reflexivity].
      pose proof (search_headers_entra R' (configuration R B) [] Hmode) as Hh.
      destruct (credential_get_token R' _) as [tok|e].
      * rewrite (_search_index_posts R' _ emb k _ _ _ Hh). cbn. now left.
      * rewrite (_search_index_headers_raise R' _ emb k _ _ _ Hh).
        cbn. now left.
    + split; [discriminate|].
      rewrite (_search_index_posts R' _ emb k _ _ _
                 (search_headers_key R' (configuration R B) [] Hmode)).
      cbn. intuition discriminate.
Qed.

Lemma credential_is_set_when_search_needs_it_witness :
  In (GetToken "https://search.azure.com/.default")
     (snd (_search_index Scenario.healthy
             (configuration (configured "https://example.search.windows.net"
                                        "ENTRA")
                            Cli.AsciiText.builtins)
             (VList []) 5 [])).
Proof.
  refine (proj1 (proj2 (credential_is_set_when_search_needs_it
                          (configured "https://example.search.windows.net"
                                      "ENTRA")
                          Cli.AsciiText.builtins constructing _
                          {| config :=
                               configuration
                                 (configured
                                    "https://example.search.windows.net"
                                    "ENTRA")
                                 Cli.AsciiText.builtins;
                             credential := true;
                             openai_client := true |}
                          eq_refl)
                       Scenario.healthy (VList []) 5)
                eq_refl).
Defined.

(** X21. The configuration cannot change the system prompt.  For an agent
    that [__init__] has built, every chat completion is asked of the model
    named by [CHAT_MODEL_NAME], [gpt-4o] when it is not set, and the first
    message of its prompt is the system prompt written in the source,
    whatever the environment holds. *)
Theorem configured_agent_keeps_the_system_prompt
  (R : Runtime) (B : Cli.Builtins) (K : Constructors)
  (steps : list step) (inst : Instance)
  (R' : Runtime) (query : string) (context : value) (log : Log) :
  __init__ R B K = (steps, Returns inst) ->
  exists user_message,
    snd (_generate_response R' (config inst) query context log)
    = (log ++ [ChatCompletionsCreate
                 (match os_getenv R "CHAT_MODEL_NAME" with
                  | Some model => model
                  | None => "gpt-4o"
                  end)
                 (VList [ VDict [ ("role", VStr "system");
                                  ("content", VStr SYSTEM_PROMPT) ];
                          VDict [ ("role", VStr "user");
                                  ("content", VStr user_message) ] ])
                 0.7%float])%list.
Proof.
  intros Hinit. destruct (__init___config R B K steps inst Hinit) as [-> _].
  eexists.
  destruct (_generate_response R' (configuration R B) query context log)
    as [o l] eqn:Hgen.
  rewrite (_generate_response_log R' _ _ _ _ _ _ Hgen). reflexivity.
Qed.

Lemma configured_agent_keeps_the_system_prompt_witness :
  exists user_message,
    snd (_generate_response Scenario.healthy
           (configuration (configured "https://example.search.windows.net"
                                      "key")
                          Cli.AsciiText.builtins)
           Scenario.question (VList []) [])
    = [ChatCompletionsCreate "gpt-4o"
         (VList [ VDict [ ("role", VStr "system");
                          ("content", VStr SYSTEM_PROMPT) ];
                  VDict [ ("role", VStr "user");
                          ("content", VStr user_message) ] ])
         0.7%float].
Proof.
  exact (configured_agent_keeps_the_system_prompt
           (configured "https://example.search.windows.net" "key")
           Cli.AsciiText.builtins constructing _
           {| config :=
                configuration
                  (configured "https://example.search.windows.net" "key")
                  Cli.AsciiText.builtins;
              credential := false;
              openai_client := true |}
           Scenario.healthy Scenario.question (VList []) [] eq_refl).
Defined.

(* ================================================================== *)
(** ** What the HTTP handlers pass on *)
(* ================================================================== *)

(** X22. Both endpoints, [POST /chat] and [POST /api/chat], hand the
    request to the agent as it is: they make the calls of one run of
    [chat] and no other, the embedding call carries the message of the
    request, untouched, and the search request its [top_k], which is 5 for
    a body that leaves it out. *)
Theorem handlers_forward_the_request
  (R : Runtime) (agent : MultiModalRAGAgent.t)
  (request : ChatRequest.t) (log : Log) :
  App.api_chat R agent request log = App.chat R agent request log
  /\ snd (App.chat R agent request log)
     = snd (chat R agent (ChatRequest.message request)
                 (ChatRequest.top_k request) log)
  /\ (exists added,
         snd (App.chat R agent request log) = (log ++ added)%list
         /\ Forall (carries (ChatRequest.message request)
                            (ChatRequest.top_k request)) added)
  /\ forall message,
       ChatRequest.top_k (ChatRequest.parse message None) = 5.
Proof.
  split; [reflexivity|].
  assert (Hsnd : snd (App.chat R agent request log)
                 = snd (chat R agent (ChatRequest.message request)
                             (ChatRequest.top_k request) log)).
  { destruct (run_cases R agent (ChatRequest.message request)
                        (ChatRequest.top_k request) log)
      as [(ctx & r & l & Hrun) | (st & e & l & Hrun)].
    - now rewrite (handler_when_stages_return Hrun),
                  (chat_when_stages_return Hrun).
    - now rewrite (handler_when_stage_raises Hrun),
                  (chat_when_stage_raises Hrun). }
  split; [exact Hsnd|]. split; [|reflexivity].
  rewrite Hsnd. apply chat_events.
Qed.

(* ================================================================== *)
(** ** The session and its agent *)
(* ================================================================== *)

(** The agent is created after the banner and outside the loop: when a
    constructor raises, the session ends with that exception, having shown
    the banner and read nothing. *)
Lemma session_ends_when_start_up_fails
  (R : Runtime) (B : Cli.Builtins) (K : Startup.Constructors)
  (fuel : nat) (stdin : list Cli.keystroke)
  (log : Log) (steps : list Startup.step) (e : PyExn) :
  Startup.create_agent R B K = (steps, Raises e) ->
  Session.run_interactive_cli R B K fuel stdin (log, [])
  = (Raises e,
     (log, (snd (snd (Cli.banner (log, []))) ++ Session.printed steps)%list)).
Proof.
  intros Hstart.
  unfold Session.run_interactive_cli, Session.create_agent, Cli.cbind at 1.
  unfold Cli.banner, Cli.cbind, Cli.print, Cli.write. cbn [fst snd].
  now rewrite Hstart.
Qed.

(** Once the agent is there, the session is the loop run with the
    configuration that start-up read. *)
Lemma session_runs_the_loop
  (R : Runtime) (B : Cli.Builtins) (K : Startup.Constructors)
  (fuel : nat) (stdin : list Cli.keystroke)
  (log : Log) (steps : list Startup.step) (instance : Startup.Instance) :
  Startup.create_agent R B K = (steps, Returns instance) ->
  Session.run_interactive_cli R B K fuel stdin (log, [])
  = Cli.loop R B (Startup.config instance) fuel stdin
      (log, (snd (snd (Cli.banner (log, []))) ++ Session.printed steps)%list).
Proof.
  intros Hstart.
  unfold Session.run_interactive_cli, Session.create_agent, Cli.cbind at 1.
  unfold Cli.banner, Cli.cbind, Cli.print, Cli.write. cbn [fst snd].
  now rewrite Hstart.
Qed.
